(** * n8nService: the webhook invoker and the status poller

    A shallow embedding of [src/services/n8nService.ts]
    ([executeWorkflow], [executeWorkflowWithFiles], [pollWorkflowStatus])
    and the properties of the workflow-invocation / polling contract.

    The service talks to the outside through [fetch], [response.json()],
    [setTimeout] and [console.error].  These are modelled by a world that
    holds a network oracle (what the n-th [fetch] call answers) and the
    trace of effects performed so far, threaded through a small
    state-and-exception monad; [try]/[catch] is a combinator of that monad. *)

From Stdlib Require Import ZArith List String Ascii Bool Lia.
From Stdlib Require Import DecimalString.
Import ListNotations.
Open Scope string_scope.
Open Scope Z_scope.
Set Warnings "-register-all".

(** ** JavaScript values *)

Module Js.

(** A value produced by [JSON.parse] (what [response.json()] resolves to).
    Numbers are kept as integers: the service only tests a number for
    being zero.  A parsed object has distinct keys; it is kept as the
    list of its properties. *)
Inductive json : Type :=
| JNull
| JBool (b : bool)
| JNum (n : Z)
| JStr (s : string)
| JArr (items : list json)
| JObj (props : list (string * json)).

(** A value that was thrown (or with which a promise was rejected):
    an instance of [Error] with its [message], or anything else. *)
Inductive thrown : Type :=
| ThrownError (message : string)
| ThrownOther.

(** [new Error(m)] *)
Definition new_Error (m : string) : thrown := ThrownError m.

(** ToBoolean on a parsed value: [null], [false], [0] and [''] are falsy. *)
Definition truthy (v : json) : bool :=
  match v with
  | JNull => false
  | JBool b => b
  | JNum n => negb (n =? 0)
  | JStr s => negb (s =? "")%string
  | JArr _ => true
  | JObj _ => true
  end.

(** ToBoolean on [string | undefined]. *)
Definition truthy_str (s : option string) : bool :=
  match s with
  | Some x => negb (x =? "")%string
  | None => false
  end.

(** [a || b] on [string | undefined]. *)
Definition or_str (a b : option string) : option string :=
  if truthy_str a then a else b.

(** [a || b] where [a] may be [undefined] and [b] is a value. *)
Definition or_value (a : option json) (b : json) : json :=
  match a with
  | Some v => if truthy v then v else b
  | None => b
  end.

(** Own-property lookup in a parsed object. *)
Fixpoint lookup (key : string) (props : list (string * json)) : option json :=
  match props with
  | [] => None
  | (k, v) :: rest => if (k =? key)%string then Some v else lookup key rest
  end.

(** The message of the TypeError raised by reading a property of [null]
    (the wording is the engine's; this is V8's). *)
Definition null_property_message (key : string) : string :=
  "Cannot read properties of null (reading '" ++ key ++ "')".

(** [v.key]: throws on [null], is a property of an object, and is
    [undefined] on every other parsed value (neither [status] nor [error]
    is a property of the built-in prototypes). *)
Definition get_prop (v : json) (key : string) : thrown + option json :=
  match v with
  | JNull => inl (ThrownError (null_property_message key))
  | JObj props => inr (lookup key props)
  | _ => inr None
  end.

(** [x === 'lit'] where [x] may be [undefined]. *)
Definition strict_eq_str (x : option json) (lit : string) : bool :=
  match x with
  | Some (JStr s) => (s =? lit)%string
  | _ => false
  end.

(** A number inside a template literal. *)
Definition number_to_string (n : Z) : string :=
  NilZero.string_of_int (Z.to_int n).

End Js.
Import Js.

(** ** HTTP *)

(** An entry of a [FormData] body. *)
Inductive FormEntry : Type :=
| FormText (value : string)
| FormFile (filename : string) (content : list Byte.byte).

Definition FormData : Type := list (string * FormEntry).

Inductive Method : Type := GET | POST.

(** The body handed to [fetch]: the text [JSON.stringify] gives for a value
    (kept as that value), a multipart form, or none. *)
Inductive RequestBody : Type :=
| BodyJsonOf (value : json)
| BodyForm (form : FormData)
| NoBody.

Record Request : Type := mkRequest {
  req_url : string;
  req_method : Method;
  req_headers : list (string * string);
  req_body : RequestBody
}.

(** What [response.json()] does for a response: resolve to the parsed body
    or reject. *)
Inductive BodyJson : Type :=
| Parses (value : json)
| ParseFails (err : thrown).

Record Response : Type := mkResponse {
  status : Z;
  body : BodyJson
}.

(** [response.ok] *)
Definition ok (r : Response) : bool :=
  (200 <=? status r) && (status r <=? 299).

(** What a call of [fetch] does: resolve to a response or reject. *)
Inductive FetchOutcome : Type :=
| Resolves (r : Response)
| Rejects (err : thrown).

(** ** The world and the effect monad *)

Inductive Event : Type :=
| EvFetch (req : Request)
| EvWait (ms : Z)
| EvConsoleError (label : string) (err : thrown).

(** [network n req] is the outcome of the call of [fetch] number [n]
    (counting from 0) when it is made with [req]; [trace] lists the effects
    performed so far, oldest first. *)
Record World : Type := mkWorld {
  network : nat -> Request -> FetchOutcome;
  trace : list Event
}.

Definition is_fetch (e : Event) : bool :=
  match e with EvFetch _ => true | _ => false end.

Definition is_wait (ms : Z) (e : Event) : bool :=
  match e with EvWait m => m =? ms | _ => false end.

Definition fetch_count (w : World) : nat :=
  List.length (filter is_fetch (trace w)).

Definition emit (e : Event) (w : World) : World :=
  mkWorld (network w) (trace w ++ [e])%list.

Inductive Outcome (A : Type) : Type :=
| Ok (a : A)
| Throw (err : thrown).
Arguments Ok {A} a.
Arguments Throw {A} err.

Definition M (A : Type) : Type := World -> Outcome A * World.

Definition ret {A} (a : A) : M A := fun w => (Ok a, w).

Definition bind {A B} (m : M A) (k : A -> M B) : M B :=
  fun w =>
    match m w with
    | (Ok a, w') => k a w'
    | (Throw e, w') => (Throw e, w')
    end.

Definition throw {A} (e : thrown) : M A := fun w => (Throw e, w).

(** [try { body } catch (error) { handler }] *)
Definition try_catch {A} (body_ : M A) (handler : thrown -> M A) : M A :=
  fun w =>
    match body_ w with
    | (Ok a, w') => (Ok a, w')
    | (Throw e, w') => handler e w'
    end.

Declare Scope js_scope.
Delimit Scope js_scope with js.
Notation "x <- c1 ;; c2" := (bind c1 (fun x => c2))
  (at level 100, c1 at next level, right associativity) : js_scope.
Notation "c1 ;;; c2" := (bind c1 (fun _ => c2))
  (at level 100, right associativity) : js_scope.
Open Scope js_scope.

(** [await fetch(...)] *)
Definition fetch (req : Request) : M Response :=
  fun w =>
    let w' := emit (EvFetch req) w in
    match network w (fetch_count w) req with
    | Resolves r => (Ok r, w')
    | Rejects e => (Throw e, w')
    end.

(** [await response.json()] *)
Definition response_json (r : Response) : M json :=
  match body r with
  | Parses v => ret v
  | ParseFails e => throw e
  end.

(** [await new Promise((resolve) => setTimeout(resolve, ms))] *)
Definition wait (ms : Z) : M unit :=
  fun w => (Ok tt, emit (EvWait ms) w).

(** [console.error(label, error)] *)
Definition console_error (label : string) (e : thrown) : M unit :=
  fun w => (Ok tt, emit (EvConsoleError label e) w).

(** A pure operation that may throw. *)
Definition lift {A} (x : thrown + A) : M A :=
  match x with
  | inl e => throw e
  | inr a => ret a
  end.

(** ** The service *)

(** [WorkflowResponse<T>]: [data] and [error] are optional properties.
    [error] is declared a string, yet the poller stores whatever the status
    body carries, so it is kept as a value. *)
Record WorkflowResponse : Type := mkWorkflowResponse {
  success : bool;
  data : option json;
  error : option json
}.

Definition succeeded (result : json) : WorkflowResponse :=
  mkWorkflowResponse true (Some result) None.

Definition failed (e : json) : WorkflowResponse :=
  mkWorkflowResponse false None (Some e).

Definition not_configured_message : string :=
  "Webhook URL not configured. Please set VITE_N8N_WEBHOOK_URL in your .env file.".

Definition http_error_message (r : Response) : string :=
  "HTTP error! status: " ++ number_to_string (status r).

(** [error instanceof Error ? error.message : 'An unknown error occurred'] *)
Definition error_message (e : thrown) : string :=
  match e with
  | ThrownError m => m
  | ThrownOther => "An unknown error occurred"
  end.

(** [if (!response.ok) throw new Error(`HTTP error! status: ...`)] *)
Definition check_ok (response : Response) : M unit :=
  if negb (ok response)
  then throw (new_Error (http_error_message response))
  else ret tt.

Definition post_json (url : string) (payload : json) : Request :=
  mkRequest url POST [("Content-Type", "application/json")] (BodyJsonOf payload).

Definition post_form (url : string) (formData : FormData) : Request :=
  mkRequest url POST [] (BodyForm formData).

Definition get_status (statusUrl jobId : string) : Request :=
  mkRequest (statusUrl ++ "/" ++ jobId) GET [] NoBody.

Section Service.

(** [import.meta.env.VITE_N8N_WEBHOOK_URL], a string or [undefined]. *)
Variable N8N_WEBHOOK_URL : option string.

(** [if (!url) return {...}]: [url] is [undefined] or [''] there. *)
Definition not_configured : WorkflowResponse :=
  failed (JStr not_configured_message).

(** The [catch] block of the two invokers. *)
Definition on_execution_error (error_ : thrown) : M WorkflowResponse :=
  console_error "Workflow execution error:" error_ ;;;
  ret (failed (JStr (error_message error_))).

Definition executeWorkflow (data_ : json) (webhookUrl : option string)
  : M WorkflowResponse :=
  match or_str webhookUrl N8N_WEBHOOK_URL with
  | None => ret not_configured
  | Some url =>
      if negb (truthy_str (Some url)) then ret not_configured
      else
        try_catch
          (response <- fetch (post_json url data_) ;;
           check_ok response ;;;
           result <- response_json response ;;
           ret (succeeded result))
          on_execution_error
  end.

Definition executeWorkflowWithFiles (formData : FormData) (webhookUrl : option string)
  : M WorkflowResponse :=
  match or_str webhookUrl N8N_WEBHOOK_URL with
  | None => ret not_configured
  | Some url =>
      if negb (truthy_str (Some url)) then ret not_configured
      else
        try_catch
          (response <- fetch (post_form url formData) ;;
           check_ok response ;;;
           result <- response_json response ;;
           ret (succeeded result))
          on_execution_error
  end.

End Service.

(** The [catch] block of the poller. *)
Definition on_polling_error (error_ : thrown) : M (option WorkflowResponse) :=
  console_error "Polling error:" error_ ;;;
  ret (Some (failed (JStr (error_message error_)))).

(** The body of the [while] loop, one attempt: [Some r] when the body
    executes [return r], [None] when it reaches its end (after the wait and
    [attempts++]). *)
Definition poll_attempt (jobId statusUrl : string) (interval : Z)
  : M (option WorkflowResponse) :=
  try_catch
    (response <- fetch (get_status statusUrl jobId) ;;
     check_ok response ;;;
     result <- response_json response ;;
     status_ <- lift (get_prop result "status") ;;
     if strict_eq_str status_ "completed" || strict_eq_str status_ "success"
     then ret (Some (succeeded result))
     else if strict_eq_str status_ "failed" || strict_eq_str status_ "error"
     then
       error_ <- lift (get_prop result "error") ;;
       ret (Some (failed (or_value error_ (JStr "Workflow execution failed"))))
     else
       wait interval ;;;
       ret None)
    on_polling_error.

Definition timed_out : WorkflowResponse :=
  failed (JStr "Workflow execution timed out").

(** [while (attempts < maxAttempts) { ... }] followed by the final [return].
    [maxAttempts] and [interval] are JavaScript numbers in the source; they
    are taken to be integers here ([poll_loop_number] is the loop for a
    fractional, infinite or NaN budget).  [fuel] bounds the number of
    iterations unfolded; [None] means it ran out before the loop ended
    ([poll_loop_fuel] shows that [maxAttempts - attempts] is enough). *)
Fixpoint poll_loop (fuel : nat) (jobId statusUrl : string) (interval maxAttempts : Z)
    (attempts : Z) (w : World) : option (Outcome WorkflowResponse * World) :=
  if attempts <? maxAttempts then
    match fuel with
    | O => None
    | S fuel' =>
        match poll_attempt jobId statusUrl interval w with
        | (Ok (Some r), w') => Some (Ok r, w')
        | (Ok None, w') =>
            poll_loop fuel' jobId statusUrl interval maxAttempts (attempts + 1) w'
        | (Throw e, w') => Some (Throw e, w')
        end
    end
  else Some (Ok timed_out, w).

(** [pollWorkflowStatus(jobId, statusUrl, interval, maxAttempts)], with
    [let attempts = 0]. *)
Definition pollWorkflowStatus (jobId statusUrl : string) (interval maxAttempts : Z)
    (w : World) : option (Outcome WorkflowResponse * World) :=
  poll_loop (Z.to_nat maxAttempts) jobId statusUrl interval maxAttempts 0 w.

(** The defaults of the two optional parameters. *)
Definition default_interval : Z := 2000.
Definition default_maxAttempts : Z := 30.

(** ** Vocabulary of the contract *)

(** [contains needle hay]: [needle] occurs in [hay]. *)
Fixpoint contains (needle hay : string) : bool :=
  String.prefix needle hay ||
  match hay with
  | EmptyString => false
  | String _ rest => contains needle rest
  end.

(** An endpoint is resolvable to [url]: the explicit argument or else the
    configured default is a non-empty string. *)
Definition resolvable (webhookUrl default : option string) (url : string) : Prop :=
  or_str webhookUrl default = Some url /\ url <> "".

(** What both invokers run once the endpoint is resolved: the [try] block
    and its [catch], for the request [req]. *)
Definition post (req : Request) : M WorkflowResponse :=
  try_catch
    (response <- fetch req ;;
     check_ok response ;;;
     result <- response_json response ;;
     ret (succeeded result))
    on_execution_error.

(** The two classes of terminal status values. *)
Definition is_success_status (s : option json) : bool :=
  strict_eq_str s "completed" || strict_eq_str s "success".

Definition is_failure_status (s : option json) : bool :=
  strict_eq_str s "failed" || strict_eq_str s "error".

(** A status body that lets the poll go on: a parsed value other than
    [null] whose [status] is not terminal. *)
Definition still_processing (v : json) : bool :=
  match get_prop v "status" with
  | inr s => negb (is_success_status s) && negb (is_failure_status s)
  | inl _ => false
  end.

(** A 2xx answer with such a body. *)
Definition pending (o : FetchOutcome) : bool :=
  match o with
  | Resolves r =>
      ok r && match body r with
              | Parses v => still_processing v
              | ParseFails _ => false
              end
  | Rejects _ => false
  end.

(** The effects of [n] attempts that each found the job still processing. *)
Fixpoint pending_rounds (req : Request) (interval : Z) (n : nat) : list Event :=
  match n with
  | O => []
  | S n' => EvFetch req :: EvWait interval :: pending_rounds req interval n'
  end.

Definition after (w : World) (events : list Event) : World :=
  mkWorld (network w) (trace w ++ events)%list.

Definition wait_count (ms : Z) (w : World) : nat :=
  List.length (filter (is_wait ms) (trace w)).




(** On failure [error] is a truthy value (a string, then a non-empty one). *)
Definition error_is_truthy (r : WorkflowResponse) : bool :=
  match error r with
  | Some e => truthy e
  | None => false
  end.





(** ** Scenarios *)

(** A network that answers the first calls from a script and every later
    call with [otherwise], whatever the request. *)
Definition answers (script : list FetchOutcome) (otherwise : FetchOutcome)
  : nat -> Request -> FetchOutcome :=
  fun n _ => nth n script otherwise.

(** A world in which nothing has happened yet. *)
Definition fresh (net : nat -> Request -> FetchOutcome) : World :=
  mkWorld net [].

Definition ok_with (v : json) : FetchOutcome :=
  Resolves (mkResponse 200 (Parses v)).

Definition processing_body : json :=
  JObj [("status", JStr "processing")].

Definition completed_body : json :=
  JObj [("status", JStr "completed"); ("result", JNum 42)].

Definition failed_body : json :=
  JObj [("status", JStr "failed"); ("error", JStr "bad input")].


(** [{error: "boom"}] *)
Definition error_field_body : json :=
  JObj [("error", JStr "boom")].

Definition completes_on_third : World :=
  fresh (answers [ok_with processing_body; ok_with processing_body]
                 (ok_with completed_body)).

Definition fails_on_first : World :=
  fresh (answers [] (ok_with failed_body)).


Definition always_null : World :=
  fresh (answers [] (ok_with JNull)).


Definition answers_error_field : World :=
  fresh (answers [] (ok_with error_field_body)).

Definition answers_500 : World :=
  fresh (answers [] (Resolves (mkResponse 500 (Parses JNull)))).

Definition unreachable_on_second : World :=
  fresh (answers [ok_with processing_body]
                 (Rejects (ThrownError "Failed to fetch"))).

Definition example_payload : json :=
  JObj [("name", JStr "Ada"); ("message", JStr "hello")].

Definition example_url : string := "https://n8n.example/webhook/form".

(** ** The callers of the service *)

(** The state of a React component is kept as a record; a handler runs its
    state setters in program order on it, one invocation at a time.  A
    handler returns what became of its promise, the state it leaves and the
    world. *)
Definition Handled (S : Type) : Type := (Outcome unit * S) * World.

(** *** The form dashboard ([src/pages/Dashboard.tsx]) *)

Module FormDashboard.

(** ['idle' | 'processing' | 'success' | 'error'] *)
Inductive Status : Type := Idle | Processing | Success | Error.

Definition Status_eqb (a b : Status) : bool :=
  match a, b with
  | Idle, Idle | Processing, Processing | Success, Success | Error, Error => true
  | _, _ => false
  end.

(** [WorkflowFormData].  [numberInput] is registered with [valueAsNumber]:
    it is a number, or NaN ([None]) when the field is left empty.  [file]
    lists the names of the selected files. *)
Record WorkflowFormData : Type := mkWorkflowFormData {
  textInput : string;
  selectOption : string;
  numberInput : option Z;
  textareaInput : string;
  dateInput : string;
  checkboxInput : bool;
  file : option (list string)
}.

(** The three [useState] cells.  [result] is [any] ([None] is [undefined]);
    [errorMessage] receives [response.error || '...'] as it is. *)
Record State : Type := mkState {
  status : Status;
  result : option json;
  errorMessage : json
}.

Definition initial : State := mkState Idle (Some JNull) (JStr "").

Definition setStatus (s : Status) (st : State) : State :=
  mkState s (result st) (errorMessage st).

Definition setResult (r : option json) (st : State) : State :=
  mkState (status st) r (errorMessage st).

Definition setErrorMessage (m : json) (st : State) : State :=
  mkState (status st) (result st) m.

(** A number as [JSON.stringify] writes it: NaN becomes [null]. *)
Definition number_json (n : option Z) : json :=
  match n with
  | Some z => JNum z
  | None => JNull
  end.

(** The object literal [workflowData]: six of the seven fields. *)
Definition workflowData (data_ : WorkflowFormData) : json :=
  JObj [("textInput", JStr (textInput data_));
        ("selectOption", JStr (selectOption data_));
        ("numberInput", number_json (numberInput data_));
        ("textareaInput", JStr (textareaInput data_));
        ("dateInput", JStr (dateInput data_));
        ("checkboxInput", JBool (checkboxInput data_))].

Section Handlers.

Variable N8N_WEBHOOK_URL : option string.

Definition onSubmit (data_ : WorkflowFormData) (st : State) (w : World)
  : Handled State :=
  let st := setStatus Processing st in
  let st := setErrorMessage (JStr "") st in
  let st := setResult (Some JNull) st in
  match executeWorkflow N8N_WEBHOOK_URL (workflowData data_) None w with
  | (Ok response, w') =>
      if success response then
        let st := setStatus Success st in
        let st := setResult (data response) st in
        (Ok tt, st, w')
      else
        let st := setStatus Error st in
        let st := setErrorMessage
                    (or_value (error response) (JStr "An error occurred")) st in
        (Ok tt, st, w')
  | (Throw e, w') => (Throw e, st, w')
  end.

End Handlers.

(** [handleReset], as far as the component's own state goes ([reset()]
    clears the fields of the form library). *)
Definition handleReset (st : State) : State :=
  let st := setStatus Idle st in
  let st := setResult (Some JNull) st in
  setErrorMessage (JStr "") st.

(** What the component renders, panel by panel. *)

(** [status === 'processing' && (...)] *)
Definition shows_loading (st : State) : bool :=
  Status_eqb (status st) Processing.

(** [status === 'success' && result && (...)] *)
Definition shows_result (st : State) : bool :=
  Status_eqb (status st) Success &&
  match result st with
  | Some v => truthy v
  | None => false
  end.

(** [status === 'error' && (...)] *)
Definition shows_error (st : State) : bool :=
  Status_eqb (status st) Error.

End FormDashboard.

(** *** The chat dashboard *)

Module ChatDashboard.

Inductive Role : Type := User | Assistant.

(** [Message].  [content] is declared a string; at run time it is whatever
    the reply expression evaluates to ([None] is [undefined]).  [timestamp]
    is the time value of the [Date]. *)
Record Message : Type := mkMessage {
  id : string;
  role : Role;
  content : option json;
  timestamp : Z
}.

Record State : Type := mkState {
  messages : list Message;
  input : string;
  isLoading : bool;
  showSamples : bool
}.

Definition setMessages (f : list Message -> list Message) (st : State) : State :=
  mkState (f (messages st)) (input st) (isLoading st) (showSamples st).

Definition setInput (s : string) (st : State) : State :=
  mkState (messages st) s (isLoading st) (showSamples st).

Definition setIsLoading (b : bool) (st : State) : State :=
  mkState (messages st) (input st) b (showSamples st).

Definition setShowSamples (b : bool) (st : State) : State :=
  mkState (messages st) (input st) (isLoading st) b.

(** What the clock answers to the four readings of one exchange:
    [Date.now()] and [new Date()] for the question, and again for the
    reply. *)
Record Ticks : Type := mkTicks {
  asked_now : Z;
  asked_date : Z;
  replied_now : Z;
  replied_date : Z
}.

(** [a || b] on values that may be [undefined]. *)
Definition or_undefined (a b : option json) : option json :=
  match a with
  | Some v => if truthy v then a else b
  | None => b
  end.

(** ToBoolean on a value that may be [undefined]. *)
Definition truthy_opt (a : option json) : bool :=
  match a with
  | Some v => truthy v
  | None => false
  end.

(** [v?.key]: [undefined] when [v] is [undefined] or [null], a property of
    an object, [undefined] on the other parsed values. *)
Definition optional_prop (v : option json) (key : string) : option json :=
  match v with
  | Some (JObj props) => lookup key props
  | _ => None
  end.

Definition unexpected_error_text : string :=
  "I apologize, but I encountered an unexpected error. Please try again.".

Section Handlers.

Variable N8N_WEBHOOK_URL : option string.

(** Built-ins that are not modelled further: [String.prototype.trim],
    [Date.prototype.toISOString], [JSON.stringify(v, null, 2)] and the
    conversion to string of a value that is not a string. *)
Variable trim : string -> string.
Variable toISOString : Z -> string.
Variable stringify_pretty : json -> string.
Variable ToString : json -> string.

(** A value inside a template literal. *)
Definition template_text (v : json) : string :=
  match v with
  | JStr s => s
  | _ => ToString v
  end.

(** The [content] of the assistant's message. *)
Definition reply_content (response : WorkflowResponse) : option json :=
  if success response then
    or_undefined (optional_prop (data response) "output")
      (or_undefined (optional_prop (data response) "message")
         (match data response with
          | Some v => Some (JStr (stringify_pretty v))
          | None => None
          end))
  else
    Some (JStr ("I apologize, but I encountered an error: "
                ++ template_text (or_value (error response) (JStr "Unknown error")))).

(** The [try]/[catch] of the two handlers (the same text in both): the
    message that gets appended. *)
Definition reply (ticks : Ticks) (text : string) (asked_at : Z) : M Message :=
  try_catch
    (response <- executeWorkflow N8N_WEBHOOK_URL
                   (JObj [("message", JStr text);
                          ("timestamp", JStr (toISOString asked_at))])
                   None ;;
     ret (mkMessage (number_to_string (replied_now ticks + 1)) Assistant
            (reply_content response) (replied_date ticks)))
    (fun _ =>
       ret (mkMessage (number_to_string (replied_now ticks + 1)) Assistant
              (Some (JStr unexpected_error_text)) (replied_date ticks))).

(** The [try]/[catch]/[finally] statement: append the reply, then clear the
    loading flag whatever happened.  (The [finally] block also moves the
    focus to the input box, which is no part of the state.) *)
Definition exchange (ticks : Ticks) (userMessage : Message) (text : string)
    (st : State) (w : World) : Handled State :=
  match reply ticks text (timestamp userMessage) w with
  | (Ok m, w') =>
      let st := setMessages (fun prev => prev ++ [m])%list st in
      (Ok tt, setIsLoading false st, w')
  | (Throw e, w') => (Throw e, setIsLoading false st, w')
  end.

Definition handleSampleClick (ticks : Ticks) (question : string) (st : State)
    (w : World) : Handled State :=
  if isLoading st then (Ok tt, st, w)
  else
    let st := setShowSamples false st in
    let st := setInput "" st in
    let userMessage :=
      mkMessage (number_to_string (asked_now ticks)) User
        (Some (JStr question)) (asked_date ticks) in
    let st := setMessages (fun prev => prev ++ [userMessage])%list st in
    let st := setIsLoading true st in
    exchange ticks userMessage question st w.

(** [handleSubmit(e)], after [e.preventDefault()]; [input] is the value the
    handler closed over. *)
Definition handleSubmit (ticks : Ticks) (st : State) (w : World) : Handled State :=
  let input_ := input st in
  if negb (truthy_str (Some (trim input_))) || isLoading st then (Ok tt, st, w)
  else
    let st := setShowSamples false st in
    let userMessage :=
      mkMessage (number_to_string (asked_now ticks)) User
        (Some (JStr (trim input_))) (asked_date ticks) in
    let st := setMessages (fun prev => prev ++ [userMessage])%list st in
    let st := setInput "" st in
    let st := setIsLoading true st in
    exchange ticks userMessage (trim input_) st w.

End Handlers.

End ChatDashboard.

(** *** The settings page: which stored keys are shown *)

Module SettingsPage.

Record ApiKey : Type := mkApiKey {
  id : string;
  key_name : string;
  encrypted_key : string;
  created_at : string
}.

(** [Record<string, boolean>], as the list of its properties.  The keys are
    row identifiers, none of which names a property of [Object.prototype]. *)
Definition ShowKeys : Type := list (string * bool).

Fixpoint get (m : ShowKeys) (key : string) : option bool :=
  match m with
  | [] => None
  | (k, v) :: rest => if (k =? key)%string then Some v else get rest key
  end.

(** [{...m, [key]: v}] *)
Fixpoint set (m : ShowKeys) (key : string) (v : bool) : ShowKeys :=
  match m with
  | [] => [(key, v)]
  | (k, x) :: rest =>
      if (k =? key)%string then (k, v) :: rest else (k, x) :: set rest key v
  end.

(** [showKeys[key]] as a condition. *)
Definition shown (m : ShowKeys) (key : string) : bool :=
  match get m key with
  | Some b => b
  | None => false
  end.

Definition toggleShowKey (id_ : string) (prev : ShowKeys) : ShowKeys :=
  set prev id_ (negb (shown prev id_)).

(** The string literal that is repeated to hide a key. *)
Definition mask_unit : string := "â€¢".

(** [s.repeat(n)] *)
Fixpoint repeat_string (s : string) (n : nat) : string :=
  match n with
  | O => ""
  | S n' => s ++ repeat_string s n'
  end.

(** What is written for a stored key:
    [showKeys[key.id] ? key.encrypted_key : '...'.repeat(Math.min(key.encrypted_key.length, 20))] *)
Definition displayed_key (showKeys : ShowKeys) (key : ApiKey) : string :=
  if shown showKeys (id key) then encrypted_key key
  else repeat_string mask_unit (Nat.min (String.length (encrypted_key key)) 20).


End SettingsPage.

(** *** Scenarios of the chat *)

Definition example_ticks : ChatDashboard.Ticks :=
  ChatDashboard.mkTicks 1700000000000 1700000000000 1700000000800 1700000000801.

Definition greeting : ChatDashboard.Message :=
  ChatDashboard.mkMessage "1" ChatDashboard.Assistant
    (Some (JStr "Hello!")) 1699999999000.

Definition chat_with_input (text : string) : ChatDashboard.State :=
  ChatDashboard.mkState [greeting] text false true.

(** Stand-ins for the built-ins, good for inputs that need no trimming. *)
Definition no_trim (s : string) : string := s.
Definition fixed_iso (t : Z) : string := "2023-11-14T22:13:20.000Z".
Definition fixed_text (v : json) : string := "[value]".

Definition answers_output : World :=
  fresh (answers [] (ok_with (JObj [("output", JStr "Top 20: ...");
                                    ("message", JStr "done")]))).

(** ** The poller for every numeric budget *)

(** [maxAttempts] is a JavaScript number.  As far as [attempts < maxAttempts]
    can tell, it is a rational (every finite double is one), an infinity or
    NaN.  [attempts] is a count, starting at 0 and incremented by 1. *)
Inductive number : Type :=
| Finite (numerator : Z) (denominator : positive)
| PlusInfinity
| MinusInfinity
| NaN.







(** ** The JSON invoker for every payload *)




(** ** More vocabulary of the contract *)

(** "A non-empty value", in the words of the contract: a value that is
    there and is not [null], the empty string, the empty array or the empty
    object. *)
Definition nonempty_value (field : option json) : bool :=
  match field with
  | None => false
  | Some JNull => false
  | Some (JStr s) => negb (s =? "")%string
  | Some (JArr items) => match items with [] => false | _ => true end
  | Some (JObj props) => match props with [] => false | _ => true end
  | Some _ => true
  end.




(** [{status: "failed", error: 0}] and [{status: "failed", error: []}] *)
Definition fails_with_zero : World :=
  fresh (answers [] (ok_with (JObj [("status", JStr "failed"); ("error", JNum 0)]))).

Definition fails_with_empty_array : World :=
  fresh (answers [] (ok_with (JObj [("status", JStr "failed"); ("error", JArr [])]))).


(** ** Basic facts about the world *)

Lemma after_nil w : after w [] = w.
Proof. destruct w; unfold after; simpl. now rewrite app_nil_r. Qed.

Lemma after_after w l1 l2 : after (after w l1) l2 = after w (l1 ++ l2)%list.
Proof. unfold after; simpl. now rewrite app_assoc. Qed.

Lemma emit_emit e1 e2 w : emit e2 (emit e1 w) = after w [e1; e2].
Proof. unfold emit, after; simpl. now rewrite <- app_assoc. Qed.

(** Unfold the monad and run a computation as far as the hypotheses tell. *)
Ltac run_js :=
  cbv beta delta [try_catch bind ret throw lift fetch check_ok response_json
                  wait console_error on_execution_error];
  cbv beta iota zeta.

Lemma fetch_count_after w l :
  fetch_count (after w l) = (fetch_count w + List.length (filter is_fetch l))%nat.
Proof.
  unfold fetch_count, after; simpl.
  now rewrite filter_app, length_app.
Qed.

Lemma wait_count_after ms w l :
  wait_count ms (after w l) = (wait_count ms w + List.length (filter (is_wait ms) l))%nat.
Proof.
  unfold wait_count, after; simpl.
  now rewrite filter_app, length_app.
Qed.

Lemma fetches_of_pending_rounds req interval n :
  List.length (filter is_fetch (pending_rounds req interval n)) = n.
Proof. induction n; simpl; congruence. Qed.

Lemma waits_of_pending_rounds req interval n :
  List.length (filter (is_wait interval) (pending_rounds req interval n)) = n.
Proof. induction n; simpl; [reflexivity|]. rewrite Z.eqb_refl; simpl; congruence. Qed.

Lemma prefix_app a b : String.prefix a (a ++ b) = true.
Proof.
  induction a as [|c a IH]; simpl.
  - now destruct b.
  - destruct (ascii_dec c c); [assumption | congruence].
Qed.

Lemma contains_of_prefix needle hay :
  String.prefix needle hay = true -> contains needle hay = true.
Proof. intros H. destruct hay; cbn [contains]; rewrite H; reflexivity. Qed.

Lemma contains_app pre needle suf : contains needle (pre ++ needle ++ suf) = true.
Proof.
  induction pre as [|c pre IH]; simpl.
  - apply contains_of_prefix, prefix_app.
  - rewrite IH. apply orb_true_r.
Qed.

Lemma append_empty_r s : s ++ "" = s.
Proof. induction s; simpl; congruence. Qed.

Lemma http_error_message_mentions_status r :
  contains (number_to_string (status r)) (http_error_message r) = true.
Proof.
  unfold http_error_message.
  rewrite <- (append_empty_r (number_to_string (status r))) at 2.
  apply contains_app.
Qed.

(** ** The invokers, case by case *)

Section InvokerCases.

Variable N8N_WEBHOOK_URL : option string.

Lemma executeWorkflow_resolved data_ webhookUrl url w :
  resolvable webhookUrl N8N_WEBHOOK_URL url ->
  executeWorkflow N8N_WEBHOOK_URL data_ webhookUrl w = post (post_json url data_) w.
Proof.
  intros [Hor Hne]. unfold executeWorkflow. rewrite Hor.
  apply String.eqb_neq in Hne. simpl. now rewrite Hne.
Qed.

Lemma executeWorkflowWithFiles_resolved formData webhookUrl url w :
  resolvable webhookUrl N8N_WEBHOOK_URL url ->
  executeWorkflowWithFiles N8N_WEBHOOK_URL formData webhookUrl w
  = post (post_form url formData) w.
Proof.
  intros [Hor Hne]. unfold executeWorkflowWithFiles. rewrite Hor.
  apply String.eqb_neq in Hne. simpl. now rewrite Hne.
Qed.

Lemma or_str_unresolved webhookUrl :
  truthy_str (or_str webhookUrl N8N_WEBHOOK_URL) = false ->
  forall data_ formData w,
    executeWorkflow N8N_WEBHOOK_URL data_ webhookUrl w = (Ok not_configured, w)
    /\ executeWorkflowWithFiles N8N_WEBHOOK_URL formData webhookUrl w
       = (Ok not_configured, w).
Proof.
  intros H data_ formData w.
  unfold executeWorkflow, executeWorkflowWithFiles.
  destruct (or_str webhookUrl N8N_WEBHOOK_URL) as [url|]; [|now split].
  rewrite H. now split.
Qed.

Lemma post_success req w r B :
  network w (fetch_count w) req = Resolves r ->
  ok r = true ->
  body r = Parses B ->
  post req w = (Ok (succeeded B), after w [EvFetch req]).
Proof.
  intros Hnet Hok Hbody.
  unfold post, try_catch, bind, fetch, check_ok, response_json.
  rewrite Hnet, Hok, Hbody. reflexivity.
Qed.

Lemma post_http_error req w r :
  network w (fetch_count w) req = Resolves r ->
  ok r = false ->
  post req w
  = (Ok (failed (JStr (http_error_message r))),
     after w [EvFetch req;
              EvConsoleError "Workflow execution error:"
                (ThrownError (http_error_message r))]).
Proof.
  intros Hnet Hok.
  unfold post. run_js. rewrite Hnet, Hok. simpl.
  now rewrite emit_emit.
Qed.

Lemma post_rejected req w e :
  network w (fetch_count w) req = Rejects e ->
  post req w
  = (Ok (failed (JStr (error_message e))),
     after w [EvFetch req; EvConsoleError "Workflow execution error:" e]).
Proof.
  intros Hnet.
  unfold post. run_js. rewrite Hnet. simpl.
  now rewrite emit_emit.
Qed.

Lemma post_parse_error req w r e :
  network w (fetch_count w) req = Resolves r ->
  ok r = true ->
  body r = ParseFails e ->
  post req w
  = (Ok (failed (JStr (error_message e))),
     after w [EvFetch req; EvConsoleError "Workflow execution error:" e]).
Proof.
  intros Hnet Hok Hbody.
  unfold post. run_js. rewrite Hnet, Hok, Hbody. simpl.
  now rewrite emit_emit.
Qed.

End InvokerCases.

(** ** One attempt of the poller, case by case *)

Section AttemptCases.

Variables (jobId statusUrl : string) (interval : Z).

Local Abbreviation req := (get_status statusUrl jobId).

Lemma poll_attempt_pending w :
  pending (network w (fetch_count w) req) = true ->
  poll_attempt jobId statusUrl interval w
  = (Ok None, after w [EvFetch req; EvWait interval]).
Proof.
  unfold pending, still_processing, is_success_status, is_failure_status.
  intros H. unfold poll_attempt. run_js.
  destruct (network w (fetch_count w) req) as [r|]; [|discriminate].
  apply andb_true_iff in H as [Hok H]. rewrite Hok. simpl.
  destruct (body r) as [v|]; [|discriminate].
  destruct (get_prop v "status") as [|s]; [discriminate|].
  apply andb_true_iff in H as [H1 H2].
  apply negb_true_iff in H1, H2. rewrite H1, H2.
  now rewrite emit_emit.
Qed.

Lemma poll_attempt_success w r B s :
  network w (fetch_count w) req = Resolves r ->
  ok r = true ->
  body r = Parses B ->
  get_prop B "status" = inr s ->
  is_success_status s = true ->
  poll_attempt jobId statusUrl interval w
  = (Ok (Some (succeeded B)), after w [EvFetch req]).
Proof.
  unfold is_success_status. intros Hnet Hok Hbody Hst Hs.
  unfold poll_attempt. run_js.
  rewrite Hnet, Hok. simpl. rewrite Hbody, Hst, Hs. reflexivity.
Qed.

Lemma poll_attempt_failure w r B s :
  network w (fetch_count w) req = Resolves r ->
  ok r = true ->
  body r = Parses B ->
  get_prop B "status" = inr s ->
  is_failure_status s = true ->
  exists e,
    get_prop B "error" = inr e /\
    poll_attempt jobId statusUrl interval w
    = (Ok (Some (failed (or_value e (JStr "Workflow execution failed")))),
       after w [EvFetch req]).
Proof.
  unfold is_failure_status. intros Hnet Hok Hbody Hst Hs.
  assert (Hsucc : is_success_status s = false).
  { unfold is_success_status, strict_eq_str in *.
    destruct s as [[| | |x| |]|]; try discriminate.
    apply orb_true_iff in Hs as [Hs|Hs]; apply String.eqb_eq in Hs; subst;
      reflexivity. }
  unfold is_success_status in Hsucc.
  destruct (get_prop B "error") as [t|e] eqn:He.
  { destruct B; discriminate. }
  exists e. split; [reflexivity|].
  unfold poll_attempt. run_js.
  rewrite Hnet, Hok. simpl. rewrite Hbody, Hst, Hsucc, Hs, He. reflexivity.
Qed.

(** The error an attempt raises inside its [try] block, if any. *)
Lemma poll_attempt_error w e :
  match network w (fetch_count w) req with
  | Rejects e' => e = e'
  | Resolves r =>
      if ok r then
        match body r with
        | ParseFails e' => e = e'
        | Parses v => get_prop v "status" = inl e
        end
      else e = new_Error (http_error_message r)
  end ->
  poll_attempt jobId statusUrl interval w
  = (Ok (Some (failed (JStr (error_message e)))),
     after w [EvFetch req; EvConsoleError "Polling error:" e]).
Proof.
  intros H. unfold poll_attempt, on_polling_error. run_js.
  destruct (network w (fetch_count w) req) as [r|e'].
  - destruct (ok r); simpl.
    + destruct (body r) as [v|e'].
      * rewrite H. now rewrite emit_emit.
      * subst. now rewrite emit_emit.
    + subst. now rewrite emit_emit.
  - subst. now rewrite emit_emit.
Qed.


End AttemptCases.

(** ** The poll loop *)

Section PollLoop.

Variables (jobId statusUrl : string) (interval maxAttempts : Z).

Local Abbreviation req := (get_status statusUrl jobId).
Local Abbreviation loop := (fun fuel => poll_loop fuel jobId statusUrl interval maxAttempts).

Lemma poll_loop_exit fuel attempts w :
  maxAttempts <= attempts ->
  loop fuel attempts w = Some (Ok timed_out, w).
Proof.
  intros H. destruct fuel; simpl;
    (replace (attempts <? maxAttempts) with false by (symmetry; apply Z.ltb_ge; lia));
    reflexivity.
Qed.

Lemma poll_loop_step fuel attempts w :
  attempts < maxAttempts ->
  loop (S fuel) attempts w
  = match poll_attempt jobId statusUrl interval w with
    | (Ok (Some r), w') => Some (Ok r, w')
    | (Ok None, w') => loop fuel (attempts + 1) w'
    | (Throw e, w') => Some (Throw e, w')
    end.
Proof.
  intros H. simpl.
  replace (attempts <? maxAttempts) with true by (symmetry; apply Z.ltb_lt; lia).
  reflexivity.
Qed.

(** [n] attempts that all find the job still processing leave the loop where
    it was, [n] attempts later. *)
Lemma poll_loop_pending_prefix n : forall fuel attempts w,
  attempts + Z.of_nat n <= maxAttempts ->
  (forall k, (k < n)%nat -> pending (network w (fetch_count w + k) req) = true) ->
  loop (n + fuel)%nat attempts w
  = loop fuel (attempts + Z.of_nat n) (after w (pending_rounds req interval n)).
Proof.
  induction n as [|n IH]; intros fuel attempts w Hle Hpend.
  - simpl. now rewrite Z.add_0_r, after_nil.
  - change (S n + fuel)%nat with (S (n + fuel)).
    rewrite poll_loop_step by lia.
    rewrite poll_attempt_pending
      by (specialize (Hpend 0%nat); rewrite Nat.add_0_r in Hpend; apply Hpend; lia).
    rewrite IH.
    + rewrite after_after. f_equal. lia.
    + lia.
    + intros k Hk. rewrite fetch_count_after. simpl.
      replace (fetch_count w + 1 + k)%nat with (fetch_count w + S k)%nat by lia.
      apply Hpend. lia.
Qed.


End PollLoop.

(** ** The contract of the invokers *)

(** C1. With no [webhookUrl] argument and no default webhook URL configured
    ([VITE_N8N_WEBHOOK_URL] undefined or empty), [executeWorkflow] and
    [executeWorkflowWithFiles] return, for every payload, the envelope
    [{success: false, error}] whose message refers to the configuration, and
    leave the world as it was: no request is issued. *)
Theorem unconfigured_endpoint_is_reported
    (N8N_WEBHOOK_URL : option string) (data_ : json) (formData : FormData) (w : World) :
  truthy_str N8N_WEBHOOK_URL = false ->
  exists m,
    executeWorkflow N8N_WEBHOOK_URL data_ None w
    = (Ok (mkWorkflowResponse false None (Some (JStr m))), w)
    /\ executeWorkflowWithFiles N8N_WEBHOOK_URL formData None w
       = (Ok (mkWorkflowResponse false None (Some (JStr m))), w)
    /\ contains "not configured" m = true
    /\ contains "VITE_N8N_WEBHOOK_URL" m = true.
Proof.
  intros H. exists not_configured_message.
  destruct (or_str_unresolved N8N_WEBHOOK_URL None H data_ formData w) as [H1 H2].
  repeat split; assumption || reflexivity.
Qed.

Lemma unconfigured_endpoint_witness :
  exists m,
    executeWorkflow None example_payload None (fresh (answers [] (ok_with JNull)))
    = (Ok (mkWorkflowResponse false None (Some (JStr m))),
       fresh (answers [] (ok_with JNull)))
    /\ executeWorkflowWithFiles None [("file", FormFile "a.txt" [])] None
         (fresh (answers [] (ok_with JNull)))
       = (Ok (mkWorkflowResponse false None (Some (JStr m))),
          fresh (answers [] (ok_with JNull)))
    /\ contains "not configured" m = true
    /\ contains "VITE_N8N_WEBHOOK_URL" m = true.
Proof.
  apply (unconfigured_endpoint_is_reported None example_payload
           [("file", FormFile "a.txt" [])] (fresh (answers [] (ok_with JNull)))).
  reflexivity.
Defined.

(** C2. For every payload and resolvable endpoint, when the POST receives a
    response that is not 2xx, [executeWorkflow] returns
    [{success: false, error: m}] where [m] contains the decimal status code,
    and the call performed exactly one request (followed only by the
    [console.error] of the [catch] block): there is no retry. *)
Theorem non_2xx_is_reported_once
    (N8N_WEBHOOK_URL : option string) (data_ : json) (webhookUrl : option string)
    (url : string) (w : World) (r : Response) :
  resolvable webhookUrl N8N_WEBHOOK_URL url ->
  network w (fetch_count w) (post_json url data_) = Resolves r ->
  ok r = false ->
  exists m w',
    executeWorkflow N8N_WEBHOOK_URL data_ webhookUrl w
    = (Ok (mkWorkflowResponse false None (Some (JStr m))), w')
    /\ contains (number_to_string (status r)) m = true
    /\ trace w' = (trace w ++ [EvFetch (post_json url data_);
                               EvConsoleError "Workflow execution error:"
                                 (ThrownError m)])%list
    /\ fetch_count w' = S (fetch_count w).
Proof.
  intros Hurl Hnet Hok.
  rewrite (executeWorkflow_resolved _ _ _ _ _ Hurl).
  rewrite (post_http_error _ _ _ Hnet Hok).
  eexists _, _. split; [reflexivity|].
  split; [apply http_error_message_mentions_status|].
  split; [reflexivity|].
  rewrite fetch_count_after. simpl. lia.
Qed.

Lemma non_2xx_is_reported_once_witness :
  exists m w',
    executeWorkflow None example_payload (Some example_url) answers_500
    = (Ok (mkWorkflowResponse false None (Some (JStr m))), w')
    /\ contains "500" m = true
    /\ trace w' = [EvFetch (post_json example_url example_payload);
                   EvConsoleError "Workflow execution error:" (ThrownError m)]
    /\ fetch_count w' = 1%nat.
Proof.
  apply (non_2xx_is_reported_once None example_payload (Some example_url)
           example_url answers_500 (mkResponse 500 (Parses JNull))).
  - split; [reflexivity | discriminate].
  - reflexivity.
  - reflexivity.
Defined.

(** C3. For every payload and resolvable endpoint, when the single POST
    receives a 2xx response whose body parses as the JSON value [B],
    [executeWorkflow] (JSON body, [application/json] header) and
    [executeWorkflowWithFiles] (the form as body, no header) each return
    [{success: true, data: B}], having issued that one request. *)
Theorem success_carries_parsed_body
    (N8N_WEBHOOK_URL : option string) (data_ : json) (formData : FormData)
    (webhookUrl : option string) (url : string) (w : World) (r : Response) (B : json) :
  resolvable webhookUrl N8N_WEBHOOK_URL url ->
  ok r = true ->
  body r = Parses B ->
  (network w (fetch_count w) (post_json url data_) = Resolves r ->
   executeWorkflow N8N_WEBHOOK_URL data_ webhookUrl w
   = (Ok (mkWorkflowResponse true (Some B) None),
      after w [EvFetch (mkRequest url POST [("Content-Type", "application/json")]
                          (BodyJsonOf data_))]))
  /\
  (network w (fetch_count w) (post_form url formData) = Resolves r ->
   executeWorkflowWithFiles N8N_WEBHOOK_URL formData webhookUrl w
   = (Ok (mkWorkflowResponse true (Some B) None),
      after w [EvFetch (mkRequest url POST [] (BodyForm formData))])).
Proof.
  intros Hurl Hok Hbody. split; intros Hnet.
  - rewrite (executeWorkflow_resolved _ _ _ _ _ Hurl).
    apply (post_success _ _ _ _ Hnet Hok Hbody).
  - rewrite (executeWorkflowWithFiles_resolved _ _ _ _ _ Hurl).
    apply (post_success _ _ _ _ Hnet Hok Hbody).
Qed.

Lemma success_carries_parsed_body_witness :
  executeWorkflow (Some example_url) example_payload None
    (fresh (answers [] (ok_with completed_body)))
  = (Ok (mkWorkflowResponse true (Some completed_body) None),
     after (fresh (answers [] (ok_with completed_body)))
       [EvFetch (post_json example_url example_payload)])
  /\
  executeWorkflowWithFiles (Some example_url) [("file", FormFile "a.txt" [])] None
    (fresh (answers [] (ok_with completed_body)))
  = (Ok (mkWorkflowResponse true (Some completed_body) None),
     after (fresh (answers [] (ok_with completed_body)))
       [EvFetch (post_form example_url [("file", FormFile "a.txt" [])])]).
Proof.
  destruct (success_carries_parsed_body (Some example_url) example_payload
              [("file", FormFile "a.txt" [])] None example_url
              (fresh (answers [] (ok_with completed_body)))
              (mkResponse 200 (Parses completed_body)) completed_body) as [H1 H2].
  - split; [reflexivity | discriminate].
  - reflexivity.
  - reflexivity.
  - split; [apply H1 | apply H2]; reflexivity.
Defined.

(** C8 (as stated, refuted). A 2xx response whose body is [{error: "boom"}]
    is not turned into a failure: [executeWorkflow] answers
    [{success: true, data: {error: "boom"}}]. *)
Lemma error_field_body_is_a_success :
  get_prop error_field_body "error" = inr (Some (JStr "boom"))
  /\ ok (mkResponse 200 (Parses error_field_body)) = true
  /\ fst (executeWorkflow None example_payload (Some example_url) answers_error_field)
     = Ok (mkWorkflowResponse true (Some error_field_body) None).
Proof. repeat split. Qed.

(** C8 (amended). For every payload and resolvable endpoint, a 2xx response
    whose JSON body [B] has an [error] property [e] is not turned into a
    failure by [executeWorkflow]: the envelope is [{success: true, data: B}],
    with no [error] of its own, and [e] reaches the caller only as
    [data.error]. *)
Theorem error_field_is_passed_through
    (N8N_WEBHOOK_URL : option string) (data_ : json) (webhookUrl : option string)
    (url : string) (w : World) (r : Response) (B e : json) :
  resolvable webhookUrl N8N_WEBHOOK_URL url ->
  network w (fetch_count w) (post_json url data_) = Resolves r ->
  ok r = true ->
  body r = Parses B ->
  get_prop B "error" = inr (Some e) ->
  exists envelope w',
    executeWorkflow N8N_WEBHOOK_URL data_ webhookUrl w = (Ok envelope, w')
    /\ success envelope = true
    /\ error envelope = None
    /\ data envelope = Some B
    /\ (forall d, data envelope = Some d -> get_prop d "error" = inr (Some e))
    /\ fetch_count w' = S (fetch_count w).
Proof.
  intros Hurl Hnet Hok Hbody Herror.
  rewrite (executeWorkflow_resolved _ _ _ _ _ Hurl).
  rewrite (post_success _ _ _ _ Hnet Hok Hbody).
  eexists _, _. split; [reflexivity|].
  split; [reflexivity|]. split; [reflexivity|]. split; [reflexivity|].
  split.
  - intros d [= <-]. exact Herror.
  - rewrite fetch_count_after. simpl. lia.
Qed.

Lemma error_field_is_passed_through_witness :
  exists envelope w',
    executeWorkflow None example_payload (Some example_url) answers_error_field
    = (Ok envelope, w')
    /\ success envelope = true
    /\ error envelope = None
    /\ data envelope = Some (JObj [("error", JStr "boom")])
    /\ (forall d, data envelope = Some d -> get_prop d "error" = inr (Some (JStr "boom")))
    /\ fetch_count w' = 1%nat.
Proof.
  apply (error_field_is_passed_through None example_payload (Some example_url)
           example_url answers_error_field
           (mkResponse 200 (Parses error_field_body)) error_field_body (JStr "boom")).
  - split; [reflexivity | discriminate].
  - reflexivity.
  - reflexivity.
  - reflexivity.
  - reflexivity.
Defined.

(** ** The contract of the poller *)

Section PollRuns.

Variables (jobId statusUrl : string) (interval maxAttempts : Z).

Local Abbreviation req := (get_status statusUrl jobId).

(** A run whose first [n] attempts find the job still processing, with
    budget left, comes to attempt number [n]; what that attempt returns
    decides the run. *)
Lemma poll_reaches_attempt n w :
  Z.of_nat n < maxAttempts ->
  (forall k, (k < n)%nat -> pending (network w (fetch_count w + k) req) = true) ->
  pollWorkflowStatus jobId statusUrl interval maxAttempts w
  = match poll_attempt jobId statusUrl interval
            (after w (pending_rounds req interval n)) with
    | (Ok (Some r), w') => Some (Ok r, w')
    | (Ok None, w') =>
        poll_loop (Z.to_nat maxAttempts - S n) jobId statusUrl interval maxAttempts
          (Z.of_nat n + 1) w'
    | (Throw e, w') => Some (Throw e, w')
    end.
Proof.
  intros Hlt Hpend. unfold pollWorkflowStatus.
  replace (Z.to_nat maxAttempts) with (n + S (Z.to_nat maxAttempts - S n))%nat at 1 by lia.
  rewrite poll_loop_pending_prefix by (assumption || lia).
  rewrite poll_loop_step by lia.
  reflexivity.
Qed.

(** The world at the start of attempt number [n] of such a run. *)
Lemma at_attempt n w :
  network (after w (pending_rounds req interval n))
    (fetch_count (after w (pending_rounds req interval n)))
  = network w (fetch_count w + n)%nat.
Proof. rewrite fetch_count_after, fetches_of_pending_rounds. reflexivity. Qed.

Lemma counts_after_rounds n w tail :
  fetch_count (after w (pending_rounds req interval n ++ tail))
  = (fetch_count w + n + List.length (filter is_fetch tail))%nat
  /\ wait_count interval (after w (pending_rounds req interval n ++ tail))
     = (wait_count interval w + n + List.length (filter (is_wait interval) tail))%nat.
Proof.
  rewrite fetch_count_after, wait_count_after, !filter_app, !length_app.
  rewrite fetches_of_pending_rounds, waits_of_pending_rounds. lia.
Qed.

End PollRuns.

(** C4. In every poll run, the first 2xx status response whose body has
    [status] equal to ["completed"] or ["success"] (the attempts before it
    having found the job still processing, with budget left for this one)
    ends the loop at once with [{success: true, data: <the whole body>}]:
    the run consists of [n] rounds of GET-then-wait and the final GET, so
    [n + 1] requests and [n] waits of [interval] ms. *)
Theorem completed_status_ends_poll
    (jobId statusUrl : string) (interval maxAttempts : Z) (w : World)
    (n : nat) (r : Response) (B : json) :
  Z.of_nat n < maxAttempts ->
  (forall k, (k < n)%nat ->
     pending (network w (fetch_count w + k) (get_status statusUrl jobId)) = true) ->
  network w (fetch_count w + n) (get_status statusUrl jobId) = Resolves r ->
  ok r = true ->
  body r = Parses B ->
  get_prop B "status" = inr (Some (JStr "completed"))
  \/ get_prop B "status" = inr (Some (JStr "success")) ->
  exists w',
    pollWorkflowStatus jobId statusUrl interval maxAttempts w
    = Some (Ok (mkWorkflowResponse true (Some B) None), w')
    /\ trace w' = (trace w ++ pending_rounds (get_status statusUrl jobId) interval n
                     ++ [EvFetch (get_status statusUrl jobId)])%list
    /\ fetch_count w' = (fetch_count w + n + 1)%nat
    /\ wait_count interval w' = (wait_count interval w + n)%nat.
Proof.
  intros Hlt Hpend Hnet Hok Hbody Hst.
  rewrite (poll_reaches_attempt _ _ _ _ n w Hlt Hpend).
  rewrite <- (at_attempt jobId statusUrl interval) in Hnet.
  assert (exists s, get_prop B "status" = inr s /\ is_success_status s = true)
    as (s & Hs & Hsucc) by (destruct Hst as [-> | ->]; eauto).
  rewrite (poll_attempt_success _ _ _ _ _ _ _ Hnet Hok Hbody Hs Hsucc).
  rewrite after_after.
  eexists. split; [reflexivity|]. split; [reflexivity|].
  destruct (counts_after_rounds jobId statusUrl interval n w
              [EvFetch (get_status statusUrl jobId)]) as [-> ->].
  simpl. lia.
Qed.

(** The scenario of the specification: [{status: "processing"}] twice, then
    [{status: "completed", result: 42}]; [pollWorkflowStatus(jobId, url, 10, 30)]
    returns the completed body after exactly 3 GET requests and 2 waits of
    10 ms. *)
Lemma completed_status_ends_poll_witness :
  exists w',
    pollWorkflowStatus "job-1" "https://n8n.example/status" 10 30 completes_on_third
    = Some (Ok (mkWorkflowResponse true
                  (Some (JObj [("status", JStr "completed"); ("result", JNum 42)]))
                  None), w')
    /\ trace w' = [EvFetch (get_status "https://n8n.example/status" "job-1");
                   EvWait 10;
                   EvFetch (get_status "https://n8n.example/status" "job-1");
                   EvWait 10;
                   EvFetch (get_status "https://n8n.example/status" "job-1")]
    /\ fetch_count w' = 3%nat
    /\ wait_count 10 w' = 2%nat.
Proof.
  apply (completed_status_ends_poll "job-1" "https://n8n.example/status" 10 30
           completes_on_third 2 (mkResponse 200 (Parses completed_body))
           completed_body).
  - reflexivity.
  - intros [|[|k]] Hk; [reflexivity | reflexivity | exfalso; lia].
  - reflexivity.
  - reflexivity.
  - reflexivity.
  - left; reflexivity.
Defined.

(** C7. In every poll run, an attempt whose GET fails at the transport level
    ([fetch] rejects with [e]) or receives a response that is not 2xx ([e] is
    then the HTTP error thrown for it) ends the whole poll at that attempt
    with [{success: false, error: <message of e>}]: the run has issued
    [n + 1] requests, the failed one being the last, and nothing is retried. *)
Theorem failed_attempt_ends_poll
    (jobId statusUrl : string) (interval maxAttempts : Z) (w : World)
    (n : nat) (e : thrown) :
  Z.of_nat n < maxAttempts ->
  (forall k, (k < n)%nat ->
     pending (network w (fetch_count w + k) (get_status statusUrl jobId)) = true) ->
  network w (fetch_count w + n) (get_status statusUrl jobId) = Rejects e
  \/ (exists r,
        network w (fetch_count w + n) (get_status statusUrl jobId) = Resolves r
        /\ ok r = false
        /\ e = new_Error (http_error_message r)) ->
  exists w',
    pollWorkflowStatus jobId statusUrl interval maxAttempts w
    = Some (Ok (mkWorkflowResponse false None (Some (JStr (error_message e)))), w')
    /\ trace w' = (trace w ++ pending_rounds (get_status statusUrl jobId) interval n
                     ++ [EvFetch (get_status statusUrl jobId);
                         EvConsoleError "Polling error:" e])%list
    /\ fetch_count w' = (fetch_count w + n + 1)%nat.
Proof.
  intros Hlt Hpend Hfail.
  rewrite (poll_reaches_attempt _ _ _ _ n w Hlt Hpend).
  rewrite (poll_attempt_error _ _ _ _ e).
  - rewrite after_after.
    eexists. split; [reflexivity|]. split; [reflexivity|].
    destruct (counts_after_rounds jobId statusUrl interval n w
                [EvFetch (get_status statusUrl jobId);
                 EvConsoleError "Polling error:" e]) as [-> _].
    simpl. lia.
  - rewrite at_attempt.
    destruct Hfail as [-> | (r & -> & -> & ->)]; reflexivity.
Qed.

Lemma failed_attempt_ends_poll_witness :
  exists w',
    pollWorkflowStatus "job-1" "https://n8n.example/status" 2000 30
      unreachable_on_second
    = Some (Ok (mkWorkflowResponse false None (Some (JStr "Failed to fetch"))), w')
    /\ trace w' = [EvFetch (get_status "https://n8n.example/status" "job-1");
                   EvWait 2000;
                   EvFetch (get_status "https://n8n.example/status" "job-1");
                   EvConsoleError "Polling error:" (ThrownError "Failed to fetch")]
    /\ fetch_count w' = 2%nat.
Proof.
  apply (failed_attempt_ends_poll "job-1" "https://n8n.example/status" 2000 30
           unreachable_on_second 1 (ThrownError "Failed to fetch")).
  - reflexivity.
  - intros [|k] Hk; [reflexivity | exfalso; lia].
  - left; reflexivity.
Defined.

(** C10. With [maxAttempts <= 0] the loop body never runs:
    [pollWorkflowStatus] returns
    [{success: false, error: 'Workflow execution timed out'}] and leaves the
    world as it was, so no GET request is issued and no wait is performed. *)
Theorem no_budget_times_out_at_once
    (jobId statusUrl : string) (interval maxAttempts : Z) (w : World) :
  maxAttempts <= 0 ->
  pollWorkflowStatus jobId statusUrl interval maxAttempts w
  = Some (Ok (mkWorkflowResponse false None
                (Some (JStr "Workflow execution timed out"))), w).
Proof.
  intros H. unfold pollWorkflowStatus. now apply poll_loop_exit.
Qed.

Lemma no_budget_times_out_at_once_witness :
  pollWorkflowStatus "job-1" "https://n8n.example/status" 2000 0 completes_on_third
  = Some (Ok (mkWorkflowResponse false None
                (Some (JStr "Workflow execution timed out"))), completes_on_third).
Proof.
  apply (no_budget_times_out_at_once "job-1" "https://n8n.example/status" 2000 0
           completes_on_third).
  lia.
Defined.

(** ** Termination of the poller *)


(** ** More on the invokers: the paths through the [catch] block *)

(** A [fetch] that rejects (the transport failed) makes both invokers return
    [{success: false, error}] with the [message] of the error, or
    ['An unknown error occurred'] when what was thrown is not an [Error];
    one request was made and the error was logged. *)
Theorem rejected_fetch_is_reported
    (N8N_WEBHOOK_URL : option string) (data_ : json) (formData : FormData)
    (webhookUrl : option string) (url : string) (w : World) (e : thrown) :
  resolvable webhookUrl N8N_WEBHOOK_URL url ->
  (network w (fetch_count w) (post_json url data_) = Rejects e ->
   executeWorkflow N8N_WEBHOOK_URL data_ webhookUrl w
   = (Ok (mkWorkflowResponse false None
            (Some (JStr (match e with
                         | ThrownError m => m
                         | ThrownOther => "An unknown error occurred"
                         end)))),
      after w [EvFetch (post_json url data_);
               EvConsoleError "Workflow execution error:" e]))
  /\
  (network w (fetch_count w) (post_form url formData) = Rejects e ->
   executeWorkflowWithFiles N8N_WEBHOOK_URL formData webhookUrl w
   = (Ok (mkWorkflowResponse false None
            (Some (JStr (match e with
                         | ThrownError m => m
                         | ThrownOther => "An unknown error occurred"
                         end)))),
      after w [EvFetch (post_form url formData);
               EvConsoleError "Workflow execution error:" e])).
Proof.
  intros Hurl. split; intros Hnet.
  - rewrite (executeWorkflow_resolved _ _ _ _ _ Hurl).
    apply (post_rejected _ _ _ Hnet).
  - rewrite (executeWorkflowWithFiles_resolved _ _ _ _ _ Hurl).
    apply (post_rejected _ _ _ Hnet).
Qed.

Lemma rejected_fetch_is_reported_witness :
  executeWorkflow None example_payload (Some example_url)
    (fresh (answers [] (Rejects ThrownOther)))
  = (Ok (mkWorkflowResponse false None (Some (JStr "An unknown error occurred"))),
     after (fresh (answers [] (Rejects ThrownOther)))
       [EvFetch (post_json example_url example_payload);
        EvConsoleError "Workflow execution error:" ThrownOther]).
Proof.
  apply (rejected_fetch_is_reported None example_payload [] (Some example_url)
           example_url (fresh (answers [] (Rejects ThrownOther))) ThrownOther).
  - split; [reflexivity | discriminate].
  - reflexivity.
Defined.

(** A 2xx response whose body is not JSON ([response.json()] rejects with
    [e]) is a failure for both invokers: the envelope carries the parser's
    message, after the one request. *)
Theorem malformed_body_is_reported
    (N8N_WEBHOOK_URL : option string) (data_ : json) (formData : FormData)
    (webhookUrl : option string) (url : string) (w : World) (r : Response)
    (e : thrown) :
  resolvable webhookUrl N8N_WEBHOOK_URL url ->
  ok r = true ->
  body r = ParseFails e ->
  (network w (fetch_count w) (post_json url data_) = Resolves r ->
   executeWorkflow N8N_WEBHOOK_URL data_ webhookUrl w
   = (Ok (mkWorkflowResponse false None (Some (JStr (error_message e)))),
      after w [EvFetch (post_json url data_);
               EvConsoleError "Workflow execution error:" e]))
  /\
  (network w (fetch_count w) (post_form url formData) = Resolves r ->
   executeWorkflowWithFiles N8N_WEBHOOK_URL formData webhookUrl w
   = (Ok (mkWorkflowResponse false None (Some (JStr (error_message e)))),
      after w [EvFetch (post_form url formData);
               EvConsoleError "Workflow execution error:" e])).
Proof.
  intros Hurl Hok Hbody. split; intros Hnet.
  - rewrite (executeWorkflow_resolved _ _ _ _ _ Hurl).
    apply (post_parse_error _ _ _ _ Hnet Hok Hbody).
  - rewrite (executeWorkflowWithFiles_resolved _ _ _ _ _ Hurl).
    apply (post_parse_error _ _ _ _ Hnet Hok Hbody).
Qed.

Lemma malformed_body_is_reported_witness :
  executeWorkflowWithFiles (Some example_url) [("file", FormFile "a.txt" [])] None
    (fresh (answers [] (Resolves (mkResponse 204
                          (ParseFails (ThrownError "Unexpected end of JSON input"))))))
  = (Ok (mkWorkflowResponse false None
           (Some (JStr "Unexpected end of JSON input"))),
     after (fresh (answers [] (Resolves (mkResponse 204
                          (ParseFails (ThrownError "Unexpected end of JSON input"))))))
       [EvFetch (post_form example_url [("file", FormFile "a.txt" [])]);
        EvConsoleError "Workflow execution error:"
          (ThrownError "Unexpected end of JSON input")]).
Proof.
  apply (malformed_body_is_reported (Some example_url) example_payload
           [("file", FormFile "a.txt" [])] None example_url
           (fresh (answers [] (Resolves (mkResponse 204
                          (ParseFails (ThrownError "Unexpected end of JSON input"))))))
           (mkResponse 204 (ParseFails (ThrownError "Unexpected end of JSON input")))
           (ThrownError "Unexpected end of JSON input")).
  - split; [reflexivity | discriminate].
  - reflexivity.
  - reflexivity.
  - reflexivity.
Defined.

(** The multipart invoker treats a response that is not 2xx as the JSON
    invoker does: [{success: false, error: 'HTTP error! status: <code>'}]
    after exactly one request, the body of the response being left unread. *)
Theorem non_2xx_is_reported_once_for_files
    (N8N_WEBHOOK_URL : option string) (formData : FormData)
    (webhookUrl : option string) (url : string) (w : World) (r : Response) :
  resolvable webhookUrl N8N_WEBHOOK_URL url ->
  network w (fetch_count w) (post_form url formData) = Resolves r ->
  ok r = false ->
  executeWorkflowWithFiles N8N_WEBHOOK_URL formData webhookUrl w
  = (Ok (mkWorkflowResponse false None
           (Some (JStr ("HTTP error! status: " ++ number_to_string (status r))))),
     after w [EvFetch (post_form url formData);
              EvConsoleError "Workflow execution error:"
                (ThrownError ("HTTP error! status: " ++ number_to_string (status r)))]).
Proof.
  intros Hurl Hnet Hok.
  rewrite (executeWorkflowWithFiles_resolved _ _ _ _ _ Hurl).
  apply (post_http_error _ _ _ Hnet Hok).
Qed.

Lemma non_2xx_is_reported_once_for_files_witness :
  executeWorkflowWithFiles None [("file", FormFile "a.txt" [])] (Some example_url)
    answers_500
  = (Ok (mkWorkflowResponse false None (Some (JStr "HTTP error! status: 500"))),
     after answers_500
       [EvFetch (post_form example_url [("file", FormFile "a.txt" [])]);
        EvConsoleError "Workflow execution error:"
          (ThrownError "HTTP error! status: 500")]).
Proof.
  apply (non_2xx_is_reported_once_for_files None [("file", FormFile "a.txt" [])]
           (Some example_url) example_url answers_500
           (mkResponse 500 (Parses JNull))).
  - split; [reflexivity | discriminate].
  - reflexivity.
  - reflexivity.
Defined.

(** ** How the endpoint is chosen *)

(** A non-empty [webhookUrl] argument decides the endpoint: the configured
    default plays no part in what the invokers do. *)
Theorem explicit_url_overrides_default
    (default1 default2 : option string) (data_ : json) (formData : FormData)
    (url : string) (w : World) :
  url <> "" ->
  executeWorkflow default1 data_ (Some url) w
  = executeWorkflow default2 data_ (Some url) w
  /\ executeWorkflowWithFiles default1 formData (Some url) w
     = executeWorkflowWithFiles default2 formData (Some url) w
  /\ resolvable (Some url) default1 url.
Proof.
  intros Hne.
  assert (Hres : forall d, resolvable (Some url) d url).
  { intros d. split; [|assumption]. unfold or_str. simpl.
    apply String.eqb_neq in Hne. now rewrite Hne. }
  rewrite !(executeWorkflow_resolved _ _ _ _ _ (Hres _)).
  rewrite !(executeWorkflowWithFiles_resolved _ _ _ _ _ (Hres _)).
  auto.
Qed.

Lemma explicit_url_overrides_default_witness :
  executeWorkflow None example_payload (Some example_url) answers_500
  = executeWorkflow (Some "https://other.example/hook") example_payload
      (Some example_url) answers_500
  /\ executeWorkflowWithFiles None [] (Some example_url) answers_500
     = executeWorkflowWithFiles (Some "https://other.example/hook") []
         (Some example_url) answers_500
  /\ resolvable (Some example_url) None example_url.
Proof.
  apply (explicit_url_overrides_default None (Some "https://other.example/hook")
           example_payload [] example_url answers_500).
  discriminate.
Defined.

(** An empty string passed as [webhookUrl] is no override: the invokers
    behave as if the argument had been left out, and so use the default. *)
Theorem empty_url_argument_is_ignored
    (N8N_WEBHOOK_URL : option string) (data_ : json) (formData : FormData)
    (w : World) :
  executeWorkflow N8N_WEBHOOK_URL data_ (Some "") w
  = executeWorkflow N8N_WEBHOOK_URL data_ None w
  /\ executeWorkflowWithFiles N8N_WEBHOOK_URL formData (Some "") w
     = executeWorkflowWithFiles N8N_WEBHOOK_URL formData None w.
Proof. split; reflexivity. Qed.

(** ** What a call does to the world *)

Lemma post_effects req w :
  exists r,
    post req w = (Ok r, after w [EvFetch req]) /\ success r = true
    \/ exists e,
         post req w
         = (Ok r, after w [EvFetch req; EvConsoleError "Workflow execution error:" e])
         /\ success r = false.
Proof.
  destruct (network w (fetch_count w) req) as [r|e] eqn:Hnet.
  - destruct (ok r) eqn:Hok.
    + destruct (body r) as [B|e] eqn:Hbody.
      * rewrite (post_success _ _ _ _ Hnet Hok Hbody). eauto.
      * rewrite (post_parse_error _ _ _ _ Hnet Hok Hbody). eauto.
    + rewrite (post_http_error _ _ _ Hnet Hok). eauto.
  - rewrite (post_rejected _ _ _ Hnet). eauto.
Qed.

(** Whatever the configuration and the network, a call of [executeWorkflow]
    with a payload that serialises does one of three things: nothing at all
    (no endpoint), one POST (success), or one POST followed by one
    [console.error] (failure). *)
Lemma executeWorkflow_serialisable_effects
    (N8N_WEBHOOK_URL : option string) (data_ : json) (webhookUrl : option string)
    (w : World) :
  exists r,
    (executeWorkflow N8N_WEBHOOK_URL data_ webhookUrl w = (Ok r, w)
     /\ r = not_configured
     /\ truthy_str (or_str webhookUrl N8N_WEBHOOK_URL) = false)
    \/ exists url,
         resolvable webhookUrl N8N_WEBHOOK_URL url
         /\ ((executeWorkflow N8N_WEBHOOK_URL data_ webhookUrl w
              = (Ok r, after w [EvFetch (post_json url data_)])
              /\ success r = true)
             \/ exists e,
                  executeWorkflow N8N_WEBHOOK_URL data_ webhookUrl w
                  = (Ok r, after w [EvFetch (post_json url data_);
                                    EvConsoleError "Workflow execution error:" e])
                  /\ success r = false).
Proof.
  destruct (truthy_str (or_str webhookUrl N8N_WEBHOOK_URL)) eqn:Hurl.
  - destruct (or_str webhookUrl N8N_WEBHOOK_URL) as [url|] eqn:Hor; [|discriminate].
    assert (Hres : resolvable webhookUrl N8N_WEBHOOK_URL url).
    { split; [assumption|]. simpl in Hurl. apply negb_true_iff in Hurl.
      now apply String.eqb_neq. }
    rewrite (executeWorkflow_resolved _ _ _ _ _ Hres).
    destruct (post_effects (post_json url data_) w) as (r & H).
    exists r. right. exists url. split; [assumption|]. exact H.
  - exists not_configured. left.
    now destruct (or_str_unresolved N8N_WEBHOOK_URL webhookUrl Hurl data_ [] w).
Qed.

(** The same holds of [executeWorkflowWithFiles], whose one request carries
    the form. *)
Theorem executeWorkflowWithFiles_effects
    (N8N_WEBHOOK_URL : option string) (formData : FormData)
    (webhookUrl : option string) (w : World) :
  exists r,
    (executeWorkflowWithFiles N8N_WEBHOOK_URL formData webhookUrl w = (Ok r, w)
     /\ r = not_configured
     /\ truthy_str (or_str webhookUrl N8N_WEBHOOK_URL) = false)
    \/ exists url,
         resolvable webhookUrl N8N_WEBHOOK_URL url
         /\ ((executeWorkflowWithFiles N8N_WEBHOOK_URL formData webhookUrl w
              = (Ok r, after w [EvFetch (post_form url formData)])
              /\ success r = true)
             \/ exists e,
                  executeWorkflowWithFiles N8N_WEBHOOK_URL formData webhookUrl w
                  = (Ok r, after w [EvFetch (post_form url formData);
                                    EvConsoleError "Workflow execution error:" e])
                  /\ success r = false).
Proof.
  destruct (truthy_str (or_str webhookUrl N8N_WEBHOOK_URL)) eqn:Hurl.
  - destruct (or_str webhookUrl N8N_WEBHOOK_URL) as [url|] eqn:Hor; [|discriminate].
    assert (Hres : resolvable webhookUrl N8N_WEBHOOK_URL url).
    { split; [assumption|]. simpl in Hurl. apply negb_true_iff in Hurl.
      now apply String.eqb_neq. }
    rewrite (executeWorkflowWithFiles_resolved _ _ _ _ _ Hres).
    destruct (post_effects (post_form url formData) w) as (r & H).
    exists r. right. exists url. split; [assumption|]. exact H.
  - exists not_configured. left.
    now destruct (or_str_unresolved N8N_WEBHOOK_URL webhookUrl Hurl (JObj []) formData w).
Qed.

(** ** The shape of a poll run *)



(** A 2xx status response that cannot be read ends the poll like a transport
    failure does: when [response.json()] rejects with [e], or when the body
    is JSON [null] (reading [result.status] then throws the TypeError [e]),
    the run stops at that attempt with [{success: false, error: <message of e>}]
    and the attempt is not repeated. *)
Theorem unreadable_status_ends_poll
    (jobId statusUrl : string) (interval maxAttempts : Z) (w : World)
    (n : nat) (r : Response) (e : thrown) :
  Z.of_nat n < maxAttempts ->
  (forall k, (k < n)%nat ->
     pending (network w (fetch_count w + k) (get_status statusUrl jobId)) = true) ->
  network w (fetch_count w + n) (get_status statusUrl jobId) = Resolves r ->
  ok r = true ->
  body r = ParseFails e
  \/ (body r = Parses JNull /\ e = ThrownError (null_property_message "status")) ->
  exists w',
    pollWorkflowStatus jobId statusUrl interval maxAttempts w
    = Some (Ok (mkWorkflowResponse false None (Some (JStr (error_message e)))), w')
    /\ trace w' = (trace w ++ pending_rounds (get_status statusUrl jobId) interval n
                     ++ [EvFetch (get_status statusUrl jobId);
                         EvConsoleError "Polling error:" e])%list
    /\ fetch_count w' = (fetch_count w + n + 1)%nat.
Proof.
  intros Hlt Hpend Hnet Hok Hbody.
  rewrite (poll_reaches_attempt _ _ _ _ n w Hlt Hpend).
  rewrite (poll_attempt_error _ _ _ _ e).
  - rewrite after_after.
    eexists. split; [reflexivity|]. split; [reflexivity|].
    destruct (counts_after_rounds jobId statusUrl interval n w
                [EvFetch (get_status statusUrl jobId);
                 EvConsoleError "Polling error:" e]) as [-> _].
    simpl. lia.
  - rewrite at_attempt, Hnet, Hok.
    destruct Hbody as [-> | [-> ->]]; reflexivity.
Qed.

Lemma unreadable_status_ends_poll_witness :
  exists w',
    pollWorkflowStatus "job-1" "https://n8n.example/status" 1 5 always_null
    = Some (Ok (mkWorkflowResponse false None
                  (Some (JStr "Cannot read properties of null (reading 'status')"))),
            w')
    /\ trace w' = [EvFetch (get_status "https://n8n.example/status" "job-1");
                   EvConsoleError "Polling error:"
                     (ThrownError "Cannot read properties of null (reading 'status')")]
    /\ fetch_count w' = 1%nat.
Proof.
  apply (unreadable_status_ends_poll "job-1" "https://n8n.example/status" 1 5
           always_null 0 (mkResponse 200 (Parses JNull))
           (ThrownError (null_property_message "status"))).
  - reflexivity.
  - intros k Hk; exfalso; lia.
  - reflexivity.
  - reflexivity.
  - right; split; reflexivity.
Defined.

(** ** The callers *)

(** What a caller may rely on: the invoker returns, with an envelope of one
    of two forms, after at most one request. *)
Lemma post_outcome req w :
  exists r w',
    post req w = (Ok r, w')
    /\ fetch_count w' = S (fetch_count w)
    /\ ((exists B, r = succeeded B) \/ (exists m, r = failed (JStr m))).
Proof.
  destruct (network w (fetch_count w) req) as [r|e] eqn:Hnet.
  - destruct (ok r) eqn:Hok.
    + destruct (body r) as [B|e] eqn:Hbody.
      * rewrite (post_success _ _ _ _ Hnet Hok Hbody). eexists _, _.
        split; [reflexivity|]. rewrite fetch_count_after. simpl.
        split; [lia | eauto].
      * rewrite (post_parse_error _ _ _ _ Hnet Hok Hbody). eexists _, _.
        split; [reflexivity|]. rewrite fetch_count_after. simpl.
        split; [lia | eauto].
    + rewrite (post_http_error _ _ _ Hnet Hok). eexists _, _.
      split; [reflexivity|]. rewrite fetch_count_after. simpl.
      split; [lia | eauto].
  - rewrite (post_rejected _ _ _ Hnet). eexists _, _.
    split; [reflexivity|]. rewrite fetch_count_after. simpl.
    split; [lia | eauto].
Qed.

Lemma executeWorkflow_outcome N8N_WEBHOOK_URL data_ webhookUrl w :
  exists r w',
    executeWorkflow N8N_WEBHOOK_URL data_ webhookUrl w = (Ok r, w')
    /\ (fetch_count w' <= S (fetch_count w))%nat
    /\ ((exists B, r = succeeded B) \/ (exists m, r = failed (JStr m))).
Proof.
  destruct (truthy_str (or_str webhookUrl N8N_WEBHOOK_URL)) eqn:Hurl.
  - destruct (or_str webhookUrl N8N_WEBHOOK_URL) as [url|] eqn:Hor; [|discriminate].
    assert (Hres : resolvable webhookUrl N8N_WEBHOOK_URL url).
    { split; [assumption|]. simpl in Hurl. apply negb_true_iff in Hurl.
      now apply String.eqb_neq. }
    destruct (post_outcome (post_json url data_) w) as (r & w' & H & Hn & Hr).
    exists r, w'. rewrite (executeWorkflow_resolved _ _ _ _ _ Hres).
    split; [exact H|]. split; [lia | exact Hr].
  - destruct (or_str_unresolved N8N_WEBHOOK_URL webhookUrl Hurl data_ [] w) as [H _].
    exists not_configured, w. split; [exact H|]. split; [lia|].
    right. eexists. reflexivity.
Qed.


(** *** The form dashboard *)


(** A 2xx response gives the ['success'] state with the parsed body as
    result; the result panel is rendered exactly when that body is truthy.
    So for a body such as [null], [false], [0] or [""] the page shows no
    result, no error and no loading panel. *)
Theorem success_panel_needs_truthy_body
    (N8N_WEBHOOK_URL : option string) (data_ : FormDashboard.WorkflowFormData)
    (st : FormDashboard.State) (url : string) (w : World) (r : Response) (B : json) :
  resolvable None N8N_WEBHOOK_URL url ->
  network w (fetch_count w) (post_json url (FormDashboard.workflowData data_))
  = Resolves r ->
  ok r = true ->
  body r = Parses B ->
  exists st',
    FormDashboard.onSubmit N8N_WEBHOOK_URL data_ st w
    = (Ok tt, st',
       after w [EvFetch (post_json url (FormDashboard.workflowData data_))])
    /\ st' = FormDashboard.mkState FormDashboard.Success (Some B) (JStr "")
    /\ FormDashboard.shows_result st' = truthy B
    /\ FormDashboard.shows_error st' = false
    /\ FormDashboard.shows_loading st' = false.
Proof.
  intros Hurl Hnet Hok Hbody. unfold FormDashboard.onSubmit.
  rewrite (executeWorkflow_resolved _ _ _ _ _ Hurl).
  rewrite (post_success _ _ _ _ Hnet Hok Hbody).
  eexists. split; [reflexivity|]. repeat split.
Qed.

Lemma success_panel_needs_truthy_body_witness :
  exists st',
    FormDashboard.onSubmit (Some example_url)
      (FormDashboard.mkWorkflowFormData "a" "option1" None "" "2024-01-01" false None)
      FormDashboard.initial always_null
    = (Ok tt, st',
       after always_null
         [EvFetch (post_json example_url
                     (FormDashboard.workflowData
                        (FormDashboard.mkWorkflowFormData
                           "a" "option1" None "" "2024-01-01" false None)))])
    /\ st' = FormDashboard.mkState FormDashboard.Success (Some JNull) (JStr "")
    /\ FormDashboard.shows_result st' = false
    /\ FormDashboard.shows_error st' = false
    /\ FormDashboard.shows_loading st' = false.
Proof.
  apply (success_panel_needs_truthy_body (Some example_url)
           (FormDashboard.mkWorkflowFormData "a" "option1" None "" "2024-01-01" false None)
           FormDashboard.initial example_url always_null
           (mkResponse 200 (Parses JNull)) JNull).
  - split; [reflexivity | discriminate].
  - reflexivity.
  - reflexivity.
  - reflexivity.
Defined.

(** The dashboard never passes an endpoint of its own: with no default
    webhook URL configured, submitting the form sends nothing and shows the
    configuration error. *)
Theorem onSubmit_without_configuration
    (N8N_WEBHOOK_URL : option string) (data_ : FormDashboard.WorkflowFormData)
    (st : FormDashboard.State) (w : World) :
  truthy_str N8N_WEBHOOK_URL = false ->
  FormDashboard.onSubmit N8N_WEBHOOK_URL data_ st w
  = (Ok tt,
     FormDashboard.mkState FormDashboard.Error (Some JNull)
       (JStr "Webhook URL not configured. Please set VITE_N8N_WEBHOOK_URL in your .env file."),
     w).
Proof.
  intros H. unfold FormDashboard.onSubmit.
  destruct (or_str_unresolved N8N_WEBHOOK_URL None H
              (FormDashboard.workflowData data_) [] w) as [-> _].
  reflexivity.
Qed.

Lemma onSubmit_without_configuration_witness :
  FormDashboard.onSubmit (Some "")
    (FormDashboard.mkWorkflowFormData "a" "option1" (Some 3) "" "2024-01-01" true None)
    FormDashboard.initial completes_on_third
  = (Ok tt,
     FormDashboard.mkState FormDashboard.Error (Some JNull)
       (JStr "Webhook URL not configured. Please set VITE_N8N_WEBHOOK_URL in your .env file."),
     completes_on_third).
Proof.
  apply (onSubmit_without_configuration (Some "")
           (FormDashboard.mkWorkflowFormData "a" "option1" (Some 3) "" "2024-01-01" true None)
           FormDashboard.initial completes_on_third).
  reflexivity.
Defined.

(** Nothing of the state before a submission survives it, and the files
    selected in the form are never part of what is sent: the outcome of
    [onSubmit] depends only on the six other fields. *)
Theorem onSubmit_depends_on_six_fields
    (N8N_WEBHOOK_URL : option string) (st1 st2 : FormDashboard.State) (w : World)
    (text select_ : string) (number : option Z) (area date : string) (box : bool)
    (files1 files2 : option (list string)) :
  FormDashboard.onSubmit N8N_WEBHOOK_URL
    (FormDashboard.mkWorkflowFormData text select_ number area date box files1) st1 w
  = FormDashboard.onSubmit N8N_WEBHOOK_URL
      (FormDashboard.mkWorkflowFormData text select_ number area date box files2) st2 w.
Proof. reflexivity. Qed.

(** *** The chat dashboard *)

Section ChatExchanges.

Variable N8N_WEBHOOK_URL : option string.
Variables (trim : string -> string) (toISOString : Z -> string).
Variables (stringify_pretty ToString : json -> string).

Local Abbreviation handleSubmit :=
  (ChatDashboard.handleSubmit N8N_WEBHOOK_URL trim toISOString stringify_pretty ToString).
Local Abbreviation handleSampleClick :=
  (ChatDashboard.handleSampleClick N8N_WEBHOOK_URL toISOString stringify_pretty ToString).
Local Abbreviation reply_content :=
  (ChatDashboard.reply_content stringify_pretty ToString).
Local Abbreviation question_payload :=
  (fun text asked_at =>
     JObj [("message", JStr text); ("timestamp", JStr (toISOString asked_at))]).
Local Abbreviation asked ticks text :=
  (ChatDashboard.mkMessage (number_to_string (ChatDashboard.asked_now ticks))
     ChatDashboard.User (Some (JStr text)) (ChatDashboard.asked_date ticks)).
Local Abbreviation answered ticks answer :=
  (ChatDashboard.mkMessage (number_to_string (ChatDashboard.replied_now ticks + 1))
     ChatDashboard.Assistant answer (ChatDashboard.replied_date ticks)).

(** The [try] block of an exchange never reaches its [catch]: the invoker
    returns an envelope, and the reply is built from it. *)
Lemma exchange_appends_reply ticks userMessage text st w :
  exists response w',
    executeWorkflow N8N_WEBHOOK_URL
      (question_payload text (ChatDashboard.timestamp userMessage)) None w
    = (Ok response, w')
    /\ (fetch_count w' <= S (fetch_count w))%nat
    /\ ChatDashboard.exchange N8N_WEBHOOK_URL toISOString stringify_pretty ToString
         ticks userMessage text st w
       = (Ok tt,
          ChatDashboard.mkState
            (ChatDashboard.messages st ++ [answered ticks (reply_content response)])%list
            (ChatDashboard.input st) false (ChatDashboard.showSamples st),
          w').
Proof.
  destruct (executeWorkflow_outcome N8N_WEBHOOK_URL
              (question_payload text (ChatDashboard.timestamp userMessage)) None w)
    as (response & w' & Hrun & Hn & _).
  exists response, w'. repeat split; try assumption.
  unfold ChatDashboard.exchange, ChatDashboard.reply, try_catch, bind.
  rewrite Hrun. reflexivity.
Qed.

(** [handleSubmit] on a question that is not blank, with no reply pending. *)
Lemma handleSubmit_exchange ticks st w :
  trim (ChatDashboard.input st) <> "" ->
  ChatDashboard.isLoading st = false ->
  exists response w',
    executeWorkflow N8N_WEBHOOK_URL
      (question_payload (trim (ChatDashboard.input st)) (ChatDashboard.asked_date ticks))
      None w
    = (Ok response, w')
    /\ (fetch_count w' <= S (fetch_count w))%nat
    /\ handleSubmit ticks st w
       = (Ok tt,
          ChatDashboard.mkState
            (ChatDashboard.messages st
             ++ [asked ticks (trim (ChatDashboard.input st));
                 answered ticks (reply_content response)])%list
            "" false false,
          w').
Proof.
  intros Hblank Hidle.
  unfold ChatDashboard.handleSubmit. rewrite Hidle.
  apply String.eqb_neq in Hblank. simpl truthy_str. rewrite Hblank. simpl negb.
  simpl orb. cbv iota.
  match goal with
  | |- context [ChatDashboard.exchange _ _ _ _ ?t ?u ?x ?s w] =>
      destruct (exchange_appends_reply t u x s w)
        as (response & w' & Hrun & Hn & ->)
  end.
  exists response, w'. split; [exact Hrun|]. split; [exact Hn|].
  simpl. now rewrite <- app_assoc.
Qed.

Lemma or_undefined_spec a b :
  ChatDashboard.or_undefined a b = if ChatDashboard.truthy_opt a then a else b.
Proof. destruct a as [v|]; simpl; [destruct (truthy v)|]; reflexivity. Qed.

(** A blank question and a question asked while a reply is pending are
    ignored by [handleSubmit]: nothing is sent and the state stays as it is.
    [handleSampleClick] likewise does nothing while a reply is pending. *)
Theorem chat_ignores_blank_and_busy
    (ticks : ChatDashboard.Ticks) (question : string) (st : ChatDashboard.State)
    (w : World) :
  (trim (ChatDashboard.input st) = "" \/ ChatDashboard.isLoading st = true ->
   handleSubmit ticks st w = (Ok tt, st, w))
  /\ (ChatDashboard.isLoading st = true ->
      handleSampleClick ticks question st w = (Ok tt, st, w)).
Proof.
  split.
  - intros H. unfold ChatDashboard.handleSubmit.
    destruct H as [-> | ->]; [reflexivity|]. now rewrite orb_true_r.
  - intros H. unfold ChatDashboard.handleSampleClick. now rewrite H.
Qed.

(** A question that is not blank, submitted while no reply is pending, gets
    exactly one reply: [handleSubmit] completes without throwing, after at
    most one request; the message list grows by the user's message (the
    trimmed input) followed by one assistant message; the input is cleared,
    the examples are hidden and the loading flag is off again. *)
Theorem submitted_question_gets_one_reply
    (ticks : ChatDashboard.Ticks) (st : ChatDashboard.State) (w : World) :
  trim (ChatDashboard.input st) <> "" ->
  ChatDashboard.isLoading st = false ->
  exists answer w',
    handleSubmit ticks st w
    = (Ok tt,
       ChatDashboard.mkState
         (ChatDashboard.messages st
          ++ [asked ticks (trim (ChatDashboard.input st)); answered ticks answer])%list
         "" false false,
       w')
    /\ (fetch_count w' <= S (fetch_count w))%nat
    /\ network w' = network w.
Proof.
  intros Hblank Hidle.
  destruct (handleSubmit_exchange ticks st w Hblank Hidle)
    as (response & w' & Hrun & Hn & ->).
  exists (reply_content response), w'. split; [reflexivity|]. split; [exact Hn|].
  destruct (executeWorkflow_outcome N8N_WEBHOOK_URL
              (question_payload (trim (ChatDashboard.input st))
                 (ChatDashboard.asked_date ticks)) None w)
    as (r2 & w2 & Hrun2 & _ & _).
  clear Hn. revert Hrun.
  unfold executeWorkflow.
  destruct (or_str None N8N_WEBHOOK_URL) as [url|]; [|now intros [= _ <-]].
  destruct (negb (truthy_str (Some url))); [now intros [= _ <-]|].
  fold (post (post_json url (question_payload (trim (ChatDashboard.input st))
                               (ChatDashboard.asked_date ticks)))).
  destruct (post_effects (post_json url (question_payload
              (trim (ChatDashboard.input st)) (ChatDashboard.asked_date ticks))) w)
    as (r & [[-> _] | (e & -> & _)]); now intros [= _ <-].
Qed.

(** Clicking a sample question is submitting it: while no reply is pending,
    and when the question is already trimmed and not blank,
    [handleSampleClick] does what [handleSubmit] does with that question in
    the input box, whatever the input box held. *)
Theorem sample_click_is_a_submission
    (ticks : ChatDashboard.Ticks) (question : string) (st : ChatDashboard.State)
    (w : World) :
  ChatDashboard.isLoading st = false ->
  trim question = question ->
  question <> "" ->
  handleSampleClick ticks question st w
  = handleSubmit ticks (ChatDashboard.setInput question st) w.
Proof.
  intros Hidle Htrim Hne.
  unfold ChatDashboard.handleSampleClick, ChatDashboard.handleSubmit.
  simpl. rewrite Htrim, Hidle.
  apply String.eqb_neq in Hne. rewrite Hne. reflexivity.
Qed.

(** What the assistant says after a 2xx response with body [B]: the body's
    [output] when that is truthy, else its [message] when that is truthy,
    else the pretty-printed body. *)
Theorem reply_to_success
    (ticks : ChatDashboard.Ticks) (st : ChatDashboard.State) (w : World)
    (url : string) (r : Response) (B : json) :
  trim (ChatDashboard.input st) <> "" ->
  ChatDashboard.isLoading st = false ->
  resolvable None N8N_WEBHOOK_URL url ->
  network w (fetch_count w)
    (post_json url (question_payload (trim (ChatDashboard.input st))
                      (ChatDashboard.asked_date ticks)))
  = Resolves r ->
  ok r = true ->
  body r = Parses B ->
  exists answer w',
    handleSubmit ticks st w
    = (Ok tt,
       ChatDashboard.mkState
         (ChatDashboard.messages st
          ++ [asked ticks (trim (ChatDashboard.input st)); answered ticks answer])%list
         "" false false,
       w')
    /\ answer
       = (if ChatDashboard.truthy_opt (ChatDashboard.optional_prop (Some B) "output")
          then ChatDashboard.optional_prop (Some B) "output"
          else if ChatDashboard.truthy_opt (ChatDashboard.optional_prop (Some B) "message")
          then ChatDashboard.optional_prop (Some B) "message"
          else Some (JStr (stringify_pretty B))).
Proof.
  intros Hblank Hidle Hurl Hnet Hok Hbody.
  destruct (handleSubmit_exchange ticks st w Hblank Hidle)
    as (response & w' & Hrun & _ & ->).
  rewrite (executeWorkflow_resolved _ _ _ _ _ Hurl) in Hrun.
  rewrite (post_success _ _ _ _ Hnet Hok Hbody) in Hrun.
  injection Hrun as <- <-.
  eexists _, _. split; [reflexivity|].
  unfold ChatDashboard.reply_content. simpl success. cbv iota.
  now rewrite !or_undefined_spec.
Qed.

(** What the assistant says when the invoker reports a failure with message
    [m] (no endpoint, transport or HTTP failure, malformed body): an apology
    that quotes [m], or 'Unknown error' when [m] is empty. *)
Theorem reply_to_failure
    (ticks : ChatDashboard.Ticks) (st : ChatDashboard.State) (w : World)
    (m : string) (w1 : World) :
  trim (ChatDashboard.input st) <> "" ->
  ChatDashboard.isLoading st = false ->
  executeWorkflow N8N_WEBHOOK_URL
    (question_payload (trim (ChatDashboard.input st)) (ChatDashboard.asked_date ticks))
    None w
  = (Ok (mkWorkflowResponse false None (Some (JStr m))), w1) ->
  handleSubmit ticks st w
  = (Ok tt,
     ChatDashboard.mkState
       (ChatDashboard.messages st
        ++ [asked ticks (trim (ChatDashboard.input st));
            answered ticks
              (Some (JStr ("I apologize, but I encountered an error: "
                           ++ (if (m =? "")%string then "Unknown error" else m))))])%list
       "" false false,
     w1).
Proof.
  intros Hblank Hidle Hfail.
  destruct (handleSubmit_exchange ticks st w Hblank Hidle)
    as (response & w' & Hrun & _ & ->).
  rewrite Hfail in Hrun. injection Hrun as <- <-.
  unfold ChatDashboard.reply_content. simpl.
  destruct (m =? "")%string; reflexivity.
Qed.

End ChatExchanges.

Lemma chat_ignores_blank_and_busy_witness :
  ChatDashboard.handleSubmit (Some example_url) no_trim fixed_iso fixed_text fixed_text
    example_ticks (chat_with_input "") answers_output
  = (Ok tt, chat_with_input "", answers_output).
Proof.
  apply (chat_ignores_blank_and_busy (Some example_url) no_trim fixed_iso fixed_text
           fixed_text example_ticks "" (chat_with_input "") answers_output).
  left; reflexivity.
Defined.

Lemma submitted_question_gets_one_reply_witness :
  exists answer w',
    ChatDashboard.handleSubmit (Some example_url) no_trim fixed_iso fixed_text fixed_text
      example_ticks (chat_with_input "what sells?") answers_500
    = (Ok tt,
       ChatDashboard.mkState
         [greeting;
          ChatDashboard.mkMessage "1700000000000" ChatDashboard.User
            (Some (JStr "what sells?")) 1700000000000;
          ChatDashboard.mkMessage "1700000000801" ChatDashboard.Assistant
            answer 1700000000801]
         "" false false,
       w')
    /\ (fetch_count w' <= 1)%nat
    /\ network w' = network answers_500.
Proof.
  apply (submitted_question_gets_one_reply (Some example_url) no_trim fixed_iso
           fixed_text fixed_text example_ticks (chat_with_input "what sells?")
           answers_500).
  - discriminate.
  - reflexivity.
Defined.

Lemma sample_click_is_a_submission_witness :
  ChatDashboard.handleSampleClick (Some example_url) fixed_iso fixed_text fixed_text
    example_ticks "What are the trending products in Home & Kitchen?"
    (chat_with_input "half-typed") answers_output
  = ChatDashboard.handleSubmit (Some example_url) no_trim fixed_iso fixed_text fixed_text
      example_ticks
      (chat_with_input "What are the trending products in Home & Kitchen?")
      answers_output.
Proof.
  apply (sample_click_is_a_submission (Some example_url) no_trim fixed_iso fixed_text
           fixed_text example_ticks
           "What are the trending products in Home & Kitchen?"
           (chat_with_input "half-typed") answers_output).
  - reflexivity.
  - reflexivity.
  - discriminate.
Defined.

Lemma reply_to_success_witness :
  exists answer w',
    ChatDashboard.handleSubmit (Some example_url) no_trim fixed_iso fixed_text fixed_text
      example_ticks (chat_with_input "what sells?") answers_output
    = (Ok tt,
       ChatDashboard.mkState
         [greeting;
          ChatDashboard.mkMessage "1700000000000" ChatDashboard.User
            (Some (JStr "what sells?")) 1700000000000;
          ChatDashboard.mkMessage "1700000000801" ChatDashboard.Assistant
            answer 1700000000801]
         "" false false,
       w')
    /\ answer = Some (JStr "Top 20: ...").
Proof.
  apply (reply_to_success (Some example_url) no_trim fixed_iso fixed_text fixed_text
           example_ticks (chat_with_input "what sells?") answers_output example_url
           (mkResponse 200 (Parses (JObj [("output", JStr "Top 20: ...");
                                          ("message", JStr "done")])))
           (JObj [("output", JStr "Top 20: ..."); ("message", JStr "done")])).
  - discriminate.
  - reflexivity.
  - split; [reflexivity | discriminate].
  - reflexivity.
  - reflexivity.
  - reflexivity.
Defined.

Lemma reply_to_failure_witness :
  ChatDashboard.handleSubmit None no_trim fixed_iso fixed_text fixed_text
    example_ticks (chat_with_input "what sells?") answers_output
  = (Ok tt,
     ChatDashboard.mkState
       [greeting;
        ChatDashboard.mkMessage "1700000000000" ChatDashboard.User
          (Some (JStr "what sells?")) 1700000000000;
        ChatDashboard.mkMessage "1700000000801" ChatDashboard.Assistant
          (Some (JStr "I apologize, but I encountered an error: Webhook URL not configured. Please set VITE_N8N_WEBHOOK_URL in your .env file."))
          1700000000801]
       "" false false,
     answers_output).
Proof.
  apply (reply_to_failure None no_trim fixed_iso fixed_text fixed_text
           example_ticks (chat_with_input "what sells?") answers_output
           not_configured_message answers_output).
  - discriminate.
  - reflexivity.
  - reflexivity.
Defined.

(** *** The settings page *)

Lemma get_set_same m key v : SettingsPage.get (SettingsPage.set m key v) key = Some v.
Proof.
  induction m as [|[k x] m IH]; simpl.
  - now rewrite String.eqb_refl.
  - destruct (k =? key)%string eqn:Hk; simpl; now rewrite Hk.
Qed.

Lemma get_set_other m key v other :
  other <> key ->
  SettingsPage.get (SettingsPage.set m key v) other = SettingsPage.get m other.
Proof.
  intros Hne. induction m as [|[k x] m IH]; simpl.
  - destruct (key =? other)%string eqn:Hk; [|reflexivity].
    apply String.eqb_eq in Hk. congruence.
  - destruct (k =? key)%string eqn:Hk; simpl.
    + apply String.eqb_eq in Hk. subst k.
      destruct (key =? other)%string eqn:Hko; [|reflexivity].
      apply String.eqb_eq in Hko. congruence.
    + destruct (k =? other)%string; [reflexivity | exact IH].
Qed.

Lemma shown_toggle m id_ other :
  SettingsPage.shown (SettingsPage.toggleShowKey id_ m) other
  = if (other =? id_)%string then negb (SettingsPage.shown m id_)
    else SettingsPage.shown m other.
Proof.
  unfold SettingsPage.toggleShowKey, SettingsPage.shown at 1.
  destruct (other =? id_)%string eqn:Ho.
  - apply String.eqb_eq in Ho. subst. now rewrite get_set_same.
  - apply String.eqb_neq in Ho. now rewrite get_set_other.
Qed.

(** Toggling a key flips whether that key is shown and changes nothing for
    any other key; a key never toggled is hidden. *)
Theorem toggle_flips_one_key (m : SettingsPage.ShowKeys) (id_ other : string) :
  SettingsPage.shown (SettingsPage.toggleShowKey id_ m) id_
  = negb (SettingsPage.shown m id_)
  /\ (other <> id_ ->
      SettingsPage.shown (SettingsPage.toggleShowKey id_ m) other
      = SettingsPage.shown m other)
  /\ SettingsPage.shown [] other = false.
Proof.
  rewrite !shown_toggle, String.eqb_refl. repeat split.
  intros Hne. apply String.eqb_neq in Hne. now rewrite Hne.
Qed.

(** Toggling the same key twice brings every key back to how it was shown
    (the record itself may have gained an entry). *)
Theorem toggle_twice_restores (m : SettingsPage.ShowKeys) (id_ other : string) :
  SettingsPage.shown
    (SettingsPage.toggleShowKey id_ (SettingsPage.toggleShowKey id_ m)) other
  = SettingsPage.shown m other.
Proof.
  rewrite !shown_toggle, String.eqb_refl.
  destruct (other =? id_)%string eqn:Ho; [|reflexivity].
  apply String.eqb_eq in Ho. subst. apply negb_involutive.
Qed.

(** Toggling a key's row reveals or hides that key alone: the text written
    for any other stored key is unchanged, and the toggled key is written in
    clear exactly when it was hidden before. *)
Theorem toggle_reveals_one_key
    (showKeys : SettingsPage.ShowKeys) (key other : SettingsPage.ApiKey) :
  (SettingsPage.shown showKeys (SettingsPage.id key) = false ->
   SettingsPage.displayed_key
     (SettingsPage.toggleShowKey (SettingsPage.id key) showKeys) key
   = SettingsPage.encrypted_key key)
  /\ (SettingsPage.id other <> SettingsPage.id key ->
      SettingsPage.displayed_key
        (SettingsPage.toggleShowKey (SettingsPage.id key) showKeys) other
      = SettingsPage.displayed_key showKeys other).
Proof.
  unfold SettingsPage.displayed_key. rewrite !shown_toggle, String.eqb_refl.
  split.
  - intros ->. reflexivity.
  - intros Hne. apply String.eqb_neq in Hne. now rewrite Hne.
Qed.

(** ** Budgets that are not integers *)






(** ** The contract, amended *)

(** C5 (as stated, refuted). The poller tests the [error] property for
    truth, not for being empty.  [0] is a value that is there and is not
    empty, yet [{status: "failed", error: 0}] is reported with the generic
    message; [[]] is an empty value, yet [{status: "failed", error: []}] is
    reported with that array. *)
Lemma error_field_is_tested_for_truth :
  nonempty_value (Some (JNum 0)) = true
  /\ pollWorkflowStatus "job-1" "https://n8n.example/status"
       default_interval default_maxAttempts fails_with_zero
     = Some (Ok (mkWorkflowResponse false None
                   (Some (JStr "Workflow execution failed"))),
             after fails_with_zero
               [EvFetch (get_status "https://n8n.example/status" "job-1")])
  /\ nonempty_value (Some (JArr [])) = false
  /\ pollWorkflowStatus "job-1" "https://n8n.example/status"
       default_interval default_maxAttempts fails_with_empty_array
     = Some (Ok (mkWorkflowResponse false None (Some (JArr []))),
             after fails_with_empty_array
               [EvFetch (get_status "https://n8n.example/status" "job-1")]).
Proof. repeat split. Qed.

(** C5 (amended). In every poll run, the first 2xx status response whose
    body has [status] equal to ["failed"] or ["error"] ends the loop at once
    with [{success: false, error: e}], after [n + 1] GET requests.  [e] is
    ['Workflow execution failed'] when the body's [error] property is
    missing, [null], [false], [0] or the empty string; otherwise [e] is that
    property itself: [true], a number other than 0, a non-empty string, or
    any array or object, empty or not. *)
Theorem failed_status_ends_poll
    (jobId statusUrl : string) (interval maxAttempts : Z) (w : World)
    (n : nat) (r : Response) (B : json) :
  Z.of_nat n < maxAttempts ->
  (forall k, (k < n)%nat ->
     pending (network w (fetch_count w + k) (get_status statusUrl jobId)) = true) ->
  network w (fetch_count w + n) (get_status statusUrl jobId) = Resolves r ->
  ok r = true ->
  body r = Parses B ->
  get_prop B "status" = inr (Some (JStr "failed"))
  \/ get_prop B "status" = inr (Some (JStr "error")) ->
  exists e w',
    pollWorkflowStatus jobId statusUrl interval maxAttempts w
    = Some (Ok (mkWorkflowResponse false None (Some e)), w')
    /\ trace w' = (trace w ++ pending_rounds (get_status statusUrl jobId) interval n
                     ++ [EvFetch (get_status statusUrl jobId)])%list
    /\ fetch_count w' = (fetch_count w + n + 1)%nat
    /\ (get_prop B "error" = inr None -> e = JStr "Workflow execution failed")
    /\ (get_prop B "error" = inr (Some JNull) -> e = JStr "Workflow execution failed")
    /\ (get_prop B "error" = inr (Some (JBool false)) ->
        e = JStr "Workflow execution failed")
    /\ (get_prop B "error" = inr (Some (JNum 0)) -> e = JStr "Workflow execution failed")
    /\ (get_prop B "error" = inr (Some (JStr "")) ->
        e = JStr "Workflow execution failed")
    /\ (get_prop B "error" = inr (Some (JBool true)) -> e = JBool true)
    /\ (forall x, x <> 0 -> get_prop B "error" = inr (Some (JNum x)) -> e = JNum x)
    /\ (forall s, s <> "" -> get_prop B "error" = inr (Some (JStr s)) -> e = JStr s)
    /\ (forall items, get_prop B "error" = inr (Some (JArr items)) -> e = JArr items)
    /\ (forall props, get_prop B "error" = inr (Some (JObj props)) -> e = JObj props).
Proof.
  intros Hlt Hpend Hnet Hok Hbody Hst.
  rewrite (poll_reaches_attempt _ _ _ _ n w Hlt Hpend).
  rewrite <- (at_attempt jobId statusUrl interval) in Hnet.
  assert (exists s, get_prop B "status" = inr s /\ is_failure_status s = true)
    as (s & Hs & Hfail) by (destruct Hst as [-> | ->]; eauto).
  destruct (poll_attempt_failure _ _ interval _ _ _ _ Hnet Hok Hbody Hs Hfail)
    as (field & Hfield & ->).
  rewrite after_after.
  eexists _, _. split; [reflexivity|]. split; [reflexivity|].
  split.
  { destruct (counts_after_rounds jobId statusUrl interval n w
                [EvFetch (get_status statusUrl jobId)]) as [-> _].
    simpl. lia. }
  rewrite Hfield.
  repeat split.
  - now intros [= ->].
  - now intros [= ->].
  - now intros [= ->].
  - now intros [= ->].
  - now intros [= ->].
  - now intros [= ->].
  - intros x Hx [= ->]. simpl. apply Z.eqb_neq in Hx. now rewrite Hx.
  - intros s' Hs' [= ->]. simpl. apply String.eqb_neq in Hs'. now rewrite Hs'.
  - now intros items [= ->].
  - now intros props [= ->].
Qed.

(** The scenario of the specification: [{status: "failed", error: "bad input"}]
    on the first call gives [{success: false, error: "bad input"}] after
    exactly 1 GET request. *)
Lemma failed_status_ends_poll_witness :
  exists w',
    pollWorkflowStatus "job-1" "https://n8n.example/status"
      default_interval default_maxAttempts fails_on_first
    = Some (Ok (mkWorkflowResponse false None (Some (JStr "bad input"))), w')
    /\ trace w' = [EvFetch (get_status "https://n8n.example/status" "job-1")]
    /\ fetch_count w' = 1%nat.
Proof.
  destruct (failed_status_ends_poll "job-1" "https://n8n.example/status"
              default_interval default_maxAttempts fails_on_first 0
              (mkResponse 200 (Parses failed_body)) failed_body)
    as (e & w' & Hrun & Htrace & Hcount & _ & _ & _ & _ & _ & _ & _ & Hstr & _).
  - reflexivity.
  - intros k Hk; exfalso; lia.
  - reflexivity.
  - reflexivity.
  - reflexivity.
  - left; reflexivity.
  - exists w'.
    rewrite (Hstr "bad input" ltac:(discriminate) eq_refl) in Hrun.
    split; [exact Hrun|]. split; [exact Htrace | exact Hcount].
Defined.




(** *** The envelope invariant *)











(** ** The JSON invoker for every payload *)


(** ** The shape of a poll run, for every finite budget *)



(** *** The settings page: the mask *)


